(** * Thread credentials of the library OS: [libos/src/sys/libos_getuid.c]

    A shallow embedding of the credential system calls (getuid, getgid,
    geteuid, getegid, getresuid, setuid, setgid, setreuid, setresuid,
    setgroups, getgroups) and the properties their specification states
    about them, followed by further properties read off the code.

    Conventions of the embedding:
    - [uid_t] and [gid_t] are 32-bit unsigned integers, carried as [Z] in the
      range [0 .. 2^32 - 1]; C casts are written out as arithmetic on [Z];
    - a system call takes the current thread record and returns the value of
      the call together with the record as the call leaves it (the per-thread
      lock only brackets the body and is not modelled);
    - the group buffers are lists of identifiers, read and written by index;
      the out-parameters of the queries are cells of a finite map. *)

From Stdlib Require Import ZArith Lia.
From stdpp Require Import base list gmap.

Local Open Scope Z_scope.

(** ** Machine integers and casts *)

Definition uid_t : Type := Z.
Definition gid_t : Type := Z.

(** The values a [uid_t] or [gid_t] can hold. *)
Definition is_id (x : Z) : Prop := 0 <= x < 2 ^ 32.

(** The values an [int] can hold. *)
Definition is_int (x : Z) : Prop := - 2 ^ 31 <= x < 2 ^ 31.

(** [(int)x]: reinterpretation of the low 32 bits as a signed integer. *)
Definition cast_int (x : Z) : Z := (x + 2 ^ 31) mod 2 ^ 32 - 2 ^ 31.

(** [(unsigned int)x]. *)
Definition cast_uint (x : Z) : Z := x mod 2 ^ 32.

(** [(size_t)x] on a 64-bit target. *)
Definition cast_size_t (x : Z) : Z := x mod 2 ^ 64.

(** [(uid_t)-1], the argument that [(int)x != -1] singles out. *)
Definition sentinel : Z := 2 ^ 32 - 1.

(** Modelled from the spec: the errno constants are declared in a header that
    is not among the sources; the specification names them EPERM, EINVAL,
    EFAULT and ENOMEM, and the values are those of the Linux ABI. *)
Definition EPERM : Z := 1.
Definition ENOMEM : Z := 12.
Definition EFAULT : Z := 14.
Definition EINVAL : Z := 22.

Definition NGROUPS_MAX : Z := 65536.

(** [sizeof(gid_t)]. *)
Definition sizeof_gid_t : Z := 4.

(** ** The credential record *)

(** Modelled from the spec: [struct libos_thread] and its [groups_info] member
    are declared in a header that is not among the sources; the fields are
    those the system calls use, which are the ones the specification lists
    for the credential record. The [groups] pointer is [None] when it is
    NULL, and otherwise the heap array it points at; [count] is a [size_t]. *)
Record libos_groups_info : Type := mk_groups_info {
  count : Z;
  groups : option (list gid_t)
}.

(** The credential fields of [struct libos_thread]. *)
Record libos_thread : Type := mk_thread {
  uid : uid_t;
  euid : uid_t;
  suid : uid_t;
  gid : gid_t;
  egid : gid_t;
  sgid : gid_t;
  groups_info : libos_groups_info
}.

(** Field assignments [current->f = v]. *)
Definition upd_uid (v : uid_t) (t : libos_thread) : libos_thread :=
  mk_thread v (euid t) (suid t) (gid t) (egid t) (sgid t) (groups_info t).
Definition upd_euid (v : uid_t) (t : libos_thread) : libos_thread :=
  mk_thread (uid t) v (suid t) (gid t) (egid t) (sgid t) (groups_info t).
Definition upd_suid (v : uid_t) (t : libos_thread) : libos_thread :=
  mk_thread (uid t) (euid t) v (gid t) (egid t) (sgid t) (groups_info t).
Definition upd_gid (v : gid_t) (t : libos_thread) : libos_thread :=
  mk_thread (uid t) (euid t) (suid t) v (egid t) (sgid t) (groups_info t).
Definition upd_egid (v : gid_t) (t : libos_thread) : libos_thread :=
  mk_thread (uid t) (euid t) (suid t) (gid t) v (sgid t) (groups_info t).
Definition upd_sgid (v : gid_t) (t : libos_thread) : libos_thread :=
  mk_thread (uid t) (euid t) (suid t) (gid t) (egid t) v (groups_info t).
Definition upd_groups_info (v : libos_groups_info) (t : libos_thread)
  : libos_thread :=
  mk_thread (uid t) (euid t) (suid t) (gid t) (egid t) (sgid t) v.

(** ** Queries

    The out-parameters of the queries are pointers to one identifier each. A
    pointer is the address of a cell ([0] is NULL) and the memory the
    pointers lead to is a finite map from addresses to cell contents, so that
    two pointers with the same address are the same cell. *)

(** [sizeof(uid_t)]. *)
Definition sizeof_uid_t : Z := 4.

(** [if (p) *p = v]. *)
Definition store_if_nonnull (p : Z) (v : Z) (mem : gmap Z Z) : gmap Z Z :=
  if p =? 0 then mem else <[p := v]> mem.

(** [p_euid] and [p_suid] are the parameters the source calls [euid] and
    [suid] (resp. [egid] and [sgid]). *)
Definition getresuid (ruid p_euid p_suid : Z) (current : libos_thread)
    (mem : gmap Z Z) : gmap Z Z :=
  let mem := store_if_nonnull ruid (uid current) mem in
  let mem := store_if_nonnull p_euid (euid current) mem in
  let mem := store_if_nonnull p_suid (suid current) mem in
  mem.

Definition getresgid (rgid p_egid p_sgid : Z) (current : libos_thread)
    (mem : gmap Z Z) : gmap Z Z :=
  let mem := store_if_nonnull rgid (gid current) mem in
  let mem := store_if_nonnull p_egid (egid current) mem in
  let mem := store_if_nonnull p_sgid (sgid current) mem in
  mem.

(** The address of the local variable of a single-field query, and the
    content of a local after the call that fills it ([0] stands for the
    indeterminate content of a local that was never written). *)
Definition local_addr : Z := 1.
Definition read_local (mem : gmap Z Z) : Z :=
  match mem !! local_addr with
  | Some v => v
  | None => 0
  end.

Definition libos_syscall_getuid (current : libos_thread) : Z :=
  read_local (getresuid local_addr 0 0 current ∅).

Definition libos_syscall_getgid (current : libos_thread) : Z :=
  read_local (getresgid local_addr 0 0 current ∅).

Definition libos_syscall_geteuid (current : libos_thread) : Z :=
  read_local (getresuid 0 local_addr 0 current ∅).

Definition libos_syscall_getegid (current : libos_thread) : Z :=
  read_local (getresgid 0 local_addr 0 current ∅).

(** [libos_syscall_getresuid]: the boundary check on user memory is external
    and is a parameter; it is asked about an address and a length. *)
Section GetResUid.

Variable is_user_memory_writable : Z -> Z -> bool.

Definition libos_syscall_getresuid (ruid p_euid p_suid : Z)
    (current : libos_thread) (mem : gmap Z Z) : Z * gmap Z Z :=
  if negb (is_user_memory_writable ruid sizeof_uid_t) ||
     negb (is_user_memory_writable p_euid sizeof_uid_t) ||
     negb (is_user_memory_writable p_suid sizeof_uid_t)
  then (- EFAULT, mem)
  else
    let mem := getresuid ruid p_euid p_suid current mem in
    (0, mem).

End GetResUid.

(** ** setuid and setgid

    The parameter that the source calls [uid] (resp. [gid]) is [arg_uid]
    (resp. [arg_gid]) here, the record field keeping the source's name. *)

Definition libos_syscall_setuid (arg_uid : uid_t) (current : libos_thread)
  : Z * libos_thread :=
  if uid current =? 0 then
    (* if the user is root, the real UID and saved set-user-ID are also set *)
    let current := upd_uid arg_uid current in
    let current := upd_suid arg_uid current in
    let current := upd_euid arg_uid current in
    (0, current)
  else if negb (arg_uid =? uid current) && negb (arg_uid =? suid current) then
    (- EPERM, current)
  else
    let current := upd_euid arg_uid current in
    (0, current).

Definition libos_syscall_setgid (arg_gid : gid_t) (current : libos_thread)
  : Z * libos_thread :=
  if uid current =? 0 then
    (* if the user is root, the real GID and saved set-group-ID are also set *)
    let current := upd_gid arg_gid current in
    let current := upd_sgid arg_gid current in
    let current := upd_egid arg_gid current in
    (0, current)
  else if negb (arg_gid =? gid current) && negb (arg_gid =? sgid current) then
    (- EPERM, current)
  else
    let current := upd_egid arg_gid current in
    (0, current).

(** ** setreuid

    [arg_euid] is the parameter the source calls [euid]. The first test on
    [current->euid] is a statement of its own: the chain of tests on the
    arguments that follows it is not its [else] branch, and runs whatever the
    first test found. No branch of the chain resets [ret] to [-EPERM]. *)

Definition libos_syscall_setreuid (ruid arg_euid : uid_t)
    (current : libos_thread) : Z * libos_thread :=
  let ret := - EPERM in
  let ret := if euid current =? 0 then 0 else ret in
  let ret :=
    if negb (cast_int ruid =? -1) && negb (cast_int arg_euid =? -1) then
      (* swapping or assigning only existing values ? *)
      if ((ruid =? uid current) || (ruid =? euid current)) &&
         ((arg_euid =? uid current) || (arg_euid =? euid current))
      then 0 else ret
    else if negb (cast_int ruid =? -1) then
      if ruid =? euid current then 0 else ret
    else if negb (cast_int arg_euid =? -1) then
      if (arg_euid =? uid current) || (arg_euid =? suid current)
      then 0 else ret
    else if (cast_int arg_euid =? -1) && (cast_int ruid =? -1) then 0
    else ret in
  if negb (ret =? 0) then (ret, current)
  else
    let set_suid := false in
    let '(current, set_suid) :=
      if negb (cast_int ruid =? -1)
      then (upd_uid ruid current, true)
      else (current, set_suid) in
    let '(current, set_suid) :=
      if negb (cast_int arg_euid =? -1) then
        let set_suid :=
          if negb (uid current =? arg_euid) then true else set_suid in
        (upd_euid arg_euid current, set_suid)
      else (current, set_suid) in
    let current :=
      if set_suid then upd_suid (euid current) current else current in
    (0, current).

(** ** setresuid

    [arg_euid] and [arg_suid] are the parameters the source calls [euid] and
    [suid]. *)

Definition libos_syscall_setresuid (ruid arg_euid arg_suid : uid_t)
    (current : libos_thread) : Z * libos_thread :=
  (* [Some ret]: the jump to [out] with that [ret]; [None]: fall through *)
  let out : option Z :=
    if negb (euid current =? 0) then
      let ret := - EPERM in
      if negb (cast_int ruid =? -1) &&
         negb (ruid =? uid current) && negb (ruid =? euid current) &&
         negb (ruid =? suid current)
      then Some ret
      else if negb (cast_int arg_euid =? -1) &&
         negb (arg_euid =? uid current) && negb (arg_euid =? euid current) &&
         negb (arg_euid =? suid current)
      then Some ret
      else if negb (cast_int arg_suid =? -1) &&
         negb (arg_suid =? uid current) && negb (arg_suid =? euid current) &&
         negb (arg_suid =? suid current)
      then Some ret
      else None
    else None in
  match out with
  | Some ret => (ret, current)
  | None =>
    let current :=
      if negb (cast_int ruid =? -1) then upd_uid ruid current else current in
    let current :=
      if negb (cast_int arg_euid =? -1)
      then upd_euid arg_euid current else current in
    let current :=
      if negb (cast_int arg_suid =? -1)
      then upd_suid arg_suid current else current in
    (0, current)
  end.

(** ** Supplementary groups

    The boundary checks on user memory and the allocator are external to the
    file and are parameters of the model. A user pointer is carried as the
    array of identifiers found at its address; [malloc] answers [None] for
    NULL and otherwise the fresh array, whose content is whatever the
    allocator left there. A system call answers [None] when it would read or
    write outside an array, which C leaves undefined. *)

(** The two copy loops [for (i = 0; i < n; i++) dst[i] = src[i]]: [n] counts
    the iterations left and [i] is the loop index. *)
Fixpoint copy_ids (n i : nat) (src dst : list gid_t) : option (list gid_t) :=
  match n with
  | O => Some dst
  | S n' =>
    match src !! i with
    | None => None
    | Some v =>
      if decide (i < length dst)%nat
      then copy_ids n' (S i) src (<[i := v]> dst)
      else None
    end
  end.

(** The array behind [current->groups_info.groups]; NULL has no element. *)
Definition groups_array (current : libos_thread) : list gid_t :=
  match groups (groups_info current) with
  | Some l => l
  | None => []
  end.

Section Groups.

Variable is_user_memory_readable : list gid_t -> Z -> bool.
Variable is_user_memory_writable : list gid_t -> Z -> bool.
Variable malloc : Z -> option (list gid_t).

Definition libos_syscall_setgroups (gidsetsize : Z) (grouplist : list gid_t)
    (current : libos_thread) : option (Z * libos_thread) :=
  if (gidsetsize <? 0) || (cast_uint gidsetsize >? NGROUPS_MAX) then
    Some (- EINVAL, current)
  else if gidsetsize =? 0 then
    (* free(groups); groups = NULL; count = 0 *)
    Some (0, upd_groups_info (mk_groups_info 0 None) current)
  else if negb (is_user_memory_readable grouplist
                  (cast_size_t (cast_size_t gidsetsize * sizeof_gid_t))) then
    Some (- EFAULT, current)
  else
    let groups_len := cast_size_t gidsetsize in
    match malloc (cast_size_t (groups_len * sizeof_gid_t)) with
    | None => Some (- ENOMEM, current)
    | Some new_groups =>
      match copy_ids (Z.to_nat groups_len) 0 grouplist new_groups with
      | None => None
      | Some new_groups =>
        (* count = groups_len; groups = new array; the old array is freed *)
        Some (0, upd_groups_info
                   (mk_groups_info groups_len (Some new_groups)) current)
      end
    end.

Definition libos_syscall_getgroups (gidsetsize : Z) (grouplist : list gid_t)
    (current : libos_thread) : option (Z * list gid_t) :=
  if gidsetsize <? 0 then Some (- EINVAL, grouplist)
  else if negb (is_user_memory_writable grouplist
                  (cast_size_t (cast_size_t gidsetsize * sizeof_gid_t))) then
    Some (- EFAULT, grouplist)
  else
    let ret_size := cast_size_t (count (groups_info current)) in
    if negb (gidsetsize =? 0) then
      if ret_size >? cast_size_t gidsetsize then Some (- EINVAL, grouplist)
      else
        match copy_ids (Z.to_nat ret_size) 0
                (groups_array current) grouplist with
        | None => None
        | Some grouplist => Some (cast_int ret_size, grouplist)
        end
    else Some (cast_int ret_size, grouplist).

End Groups.

(** The record invariant on the group list: [count] is a [size_t] and is the
    length of the array, NULL standing for the empty array. *)
Definition groups_info_ok (current : libos_thread) : Prop :=
  0 <= count (groups_info current) < 2 ^ 64 /\
  count (groups_info current) = Z.of_nat (length (groups_array current)).

(** ** Predicates of the statements *)

(** An argument that asks for a user ID the caller does not hold. *)
Definition outside_held (x : uid_t) (t : libos_thread) : Prop :=
  x <> sentinel /\ x <> uid t /\ x <> euid t /\ x <> suid t.

(** No user ID of the record is the all-ones value. *)
Definition sentinel_free (t : libos_thread) : Prop :=
  uid t <> sentinel /\ euid t <> sentinel /\ suid t <> sentinel.

(** ** Sample records and oracles *)

Definition no_groups : libos_groups_info := mk_groups_info 0 None.
Definition root_thread : libos_thread := mk_thread 0 0 0 0 0 0 no_groups.
Definition user_thread : libos_thread :=
  mk_thread 1000 1000 1000 1000 1000 1000 no_groups.
Definition setuid_root_thread : libos_thread :=
  mk_thread 1000 0 0 1000 1000 1000 no_groups.

(** A caller with real group ID 0 and real user ID 1000. *)
Definition gid0_thread : libos_thread :=
  mk_thread 1000 1000 1000 0 0 0 no_groups.

(** A thread with two supplementary groups. *)
Definition two_groups_thread : libos_thread :=
  mk_thread 1000 1000 1000 1000 1000 1000 (mk_groups_info 2 (Some [4; 5])).

(** Sample oracles: a region is accessible when it lies inside the array, and
    the allocator always succeeds and hands out zeroed arrays. *)
Definition region_inside (a : list gid_t) (sz : Z) : bool :=
  sz <=? Z.of_nat (length a) * sizeof_gid_t.
Definition malloc_zeroed (sz : Z) : option (list gid_t) :=
  Some (replicate (Z.to_nat (sz / sizeof_gid_t)) 0).

(** ** Sequences of calls on the user IDs *)

(** One of the three system calls that write the user IDs, with its
    arguments. *)
Inductive uid_call : Type :=
| call_setuid (arg_uid : uid_t)
| call_setreuid (ruid arg_euid : uid_t)
| call_setresuid (ruid arg_euid arg_suid : uid_t).

Definition run_uid_call (c : uid_call) (current : libos_thread)
  : Z * libos_thread :=
  match c with
  | call_setuid a => libos_syscall_setuid a current
  | call_setreuid a b => libos_syscall_setreuid a b current
  | call_setresuid a b c => libos_syscall_setresuid a b c current
  end.

(** The record after a sequence of calls, whatever each of them returned. *)
Fixpoint run_uid_calls (cs : list uid_call) (current : libos_thread)
  : libos_thread :=
  match cs with
  | [] => current
  | c :: cs => run_uid_calls cs (run_uid_call c current).2
  end.

(** ** Further predicates of the statements *)

(** [x] is the real, the effective or the saved user ID of [t]. *)
Definition held (t : libos_thread) (x : uid_t) : Prop :=
  x = uid t \/ x = euid t \/ x = suid t.

(** A result that is either success or -EPERM with the record [t] intact. *)
Definition zero_or_eperm (t : libos_thread) (r : Z * libos_thread) : Prop :=
  r.1 = 0 \/ r = (- EPERM, t).

(** [t'] differs from [t] in user IDs at most. *)
Definition same_group_side (t t' : libos_thread) : Prop :=
  gid t' = gid t /\ egid t' = egid t /\ sgid t' = sgid t /\
  groups_info t' = groups_info t.

(** [t'] differs from [t] in group IDs at most. *)
Definition same_user_side (t t' : libos_thread) : Prop :=
  uid t' = uid t /\ euid t' = euid t /\ suid t' = suid t /\
  groups_info t' = groups_info t.

(** The value of a field after an assignment that the sentinel skips. *)
Definition keep_or_set (x old : uid_t) : uid_t :=
  if x =? sentinel then old else x.

(** What setreuid allows a caller whose effective user ID is not 0. *)
Definition setreuid_permitted (ruid arg_euid : uid_t) (t : libos_thread)
  : Prop :=
  (ruid = sentinel /\ arg_euid = sentinel) \/
  (ruid <> sentinel /\ arg_euid = sentinel /\ ruid = euid t) \/
  (ruid = sentinel /\ arg_euid <> sentinel /\
   (arg_euid = uid t \/ arg_euid = suid t)) \/
  (ruid <> sentinel /\ arg_euid <> sentinel /\
   (ruid = uid t \/ ruid = euid t) /\
   (arg_euid = uid t \/ arg_euid = euid t)).

(** ** Further sample oracles *)

(** An allocator that always fails, and one that hands out an array of
    exactly the cells asked for. *)
Definition malloc_fails (sz : Z) : option (list gid_t) := None.
Definition malloc_exact (sz : Z) : option (list gid_t) :=
  if (0 <=? sz) && (sz mod sizeof_gid_t =? 0)
  then Some (replicate (Z.to_nat (sz / sizeof_gid_t)) 0)
  else None.

(** A thread that runs as user 1000 and has 0 as saved user ID. *)
Definition saved_root_thread : libos_thread :=
  mk_thread 1000 1000 0 1000 1000 1000 no_groups.

(** A thread with real user ID 1000 and effective user ID 33. *)
Definition two_ids_thread : libos_thread :=
  mk_thread 1000 33 33 1000 1000 1000 no_groups.

(** A boundary check that accepts every address but NULL. *)
Definition nonnull_writable (p len : Z) : bool := negb (p =? 0).

(** A boundary check that rejects every region. *)
Definition region_never (a : list gid_t) (sz : Z) : bool := false.

(** * Properties *)

(** ** Casts *)

Lemma cast_int_id (x : Z) : is_id x -> (cast_int x =? -1) = (x =? sentinel).
Proof.
  unfold is_id, cast_int, sentinel. intros Hx.
  destruct (Z_lt_le_dec x (2 ^ 31)) as [Hlt | Hge].
  - rewrite Z.mod_small by lia.
    destruct (Z.eqb_spec (x + 2 ^ 31 - 2 ^ 31) (-1)),
             (Z.eqb_spec x (2 ^ 32 - 1)); lia || reflexivity.
  - replace (x + 2 ^ 31) with (x - 2 ^ 31 + 1 * 2 ^ 32) by lia.
    rewrite Z.mod_add by lia. rewrite Z.mod_small by lia.
    destruct (Z.eqb_spec (x - 2 ^ 31 - 2 ^ 31) (-1)),
             (Z.eqb_spec x (2 ^ 32 - 1)); lia || reflexivity.
Qed.

Lemma cast_int_sentinel : cast_int sentinel = -1.
Proof. reflexivity. Qed.

Lemma sentinel_is_id : is_id sentinel.
Proof. unfold is_id, sentinel. lia. Qed.

Lemma cast_size_t_small (x : Z) : 0 <= x < 2 ^ 64 -> cast_size_t x = x.
Proof. intros Hx. unfold cast_size_t. apply Z.mod_small. lia. Qed.

Lemma cast_uint_small (x : Z) : 0 <= x < 2 ^ 32 -> cast_uint x = x.
Proof. intros Hx. unfold cast_uint. apply Z.mod_small. lia. Qed.

Lemma cast_int_small (x : Z) : is_int x -> cast_int x = x.
Proof.
  unfold is_int, cast_int. intros Hx. rewrite Z.mod_small by lia. lia.
Qed.

(** Case analysis on every integer comparison of the goal. *)
Ltac split_eqb :=
  repeat match goal with
         | |- context [?a =? ?b] => destruct (Z.eqb_spec a b); simpl
         end.

(** The same on the hypotheses that the first analysis left behind. *)
Ltac split_eqb_hyps :=
  repeat match goal with
         | H : context [?a =? ?b] |- _ =>
           destruct (Z.eqb_spec a b); simpl in H
         end.

(** Replace the tests [(int)x != -1] on identifiers by [x = sentinel]. *)
Ltac sentinel_tests :=
  repeat match goal with
         | H : is_id ?x |- context [cast_int ?x =? -1] =>
           rewrite (cast_int_id x H)
         end.

(** ** Queries *)

(** The four single-field queries return the field they are named after. *)
Lemma queries_read_fields (t : libos_thread) :
  libos_syscall_getuid t = uid t /\ libos_syscall_geteuid t = euid t /\
  libos_syscall_getgid t = gid t /\ libos_syscall_getegid t = egid t.
Proof.
  unfold libos_syscall_getuid, libos_syscall_geteuid, libos_syscall_getgid,
    libos_syscall_getegid, read_local, getresuid, getresgid, store_if_nonnull.
  simpl. rewrite !lookup_insert_eq. repeat split.
Qed.

(** ** setuid *)

(** C5: setuid by a caller whose real user ID is not 0, to a value that is
    neither the real nor the saved user ID, returns -EPERM and leaves the
    record (real, effective and saved user ID included) as it was. *)
Theorem setuid_unprivileged_eperm (id : uid_t) (t : libos_thread) :
  uid t <> 0 -> id <> uid t -> id <> suid t ->
  libos_syscall_setuid id t = (- EPERM, t).
Proof.
  intros Hroot Hreal Hsaved. unfold libos_syscall_setuid.
  split_eqb; congruence.
Qed.

Lemma setuid_unprivileged_eperm_witness :
  uid user_thread <> 0 /\ 0 <> uid user_thread /\ 0 <> suid user_thread /\
  libos_syscall_setuid 0 user_thread = (- EPERM, user_thread).
Proof.
  assert (H1 : uid user_thread <> 0) by (simpl; lia).
  assert (H2 : 0 <> uid user_thread) by (simpl; lia).
  assert (H3 : 0 <> suid user_thread) by (simpl; lia).
  exact (conj H1 (conj H2 (conj H3
           (setuid_unprivileged_eperm 0 user_thread H1 H2 H3)))).
Defined.

(** C6: setuid by a caller whose real user ID is 0 returns 0, and afterwards
    the real, effective and saved user IDs all equal the argument (the group
    fields are untouched). *)
Theorem setuid_privileged_sets_all (id : uid_t) (t : libos_thread) :
  uid t = 0 ->
  libos_syscall_setuid id t =
    (0, mk_thread id id id (gid t) (egid t) (sgid t) (groups_info t)).
Proof.
  intros Hroot. unfold libos_syscall_setuid.
  destruct (Z.eqb_spec (uid t) 0) as [_ | Hne]; [reflexivity | contradiction].
Qed.

Lemma setuid_privileged_sets_all_witness :
  uid root_thread = 0 /\
  libos_syscall_setuid 500 root_thread =
    (0, mk_thread 500 500 500 0 0 0 no_groups).
Proof.
  split; [reflexivity |].
  exact (setuid_privileged_sets_all 500 root_thread eq_refl).
Defined.

(** ** setgid *)

(** C10: in setgid the branch that also assigns the real and saved group IDs
    is taken exactly when the caller's real user ID is 0. A caller whose real
    user ID is not 0 is held to the values of its real and saved group IDs,
    whatever its group IDs are (0 included): another value gives -EPERM and no
    change, and a permitted one changes the effective group ID only. *)
Theorem setgid_privilege_is_real_uid (g : gid_t) (t : libos_thread) :
  (uid t = 0 ->
   libos_syscall_setgid g t =
     (0, mk_thread (uid t) (euid t) (suid t) g g g (groups_info t))) /\
  (uid t <> 0 -> g <> gid t -> g <> sgid t ->
   libos_syscall_setgid g t = (- EPERM, t)) /\
  (uid t <> 0 -> g = gid t \/ g = sgid t ->
   libos_syscall_setgid g t =
     (0, mk_thread (uid t) (euid t) (suid t) (gid t) g (sgid t)
           (groups_info t))).
Proof.
  unfold libos_syscall_setgid.
  split; [| split].
  - intros Hroot. split_eqb; reflexivity || congruence.
  - intros Hroot Hreal Hsaved. split_eqb; congruence.
  - intros Hroot [Hreal | Hsaved]; split_eqb; reflexivity || congruence.
Qed.

Lemma setgid_privilege_is_real_uid_witness :
  uid gid0_thread <> 0 /\ gid gid0_thread = 0 /\
  libos_syscall_setgid 5 gid0_thread = (- EPERM, gid0_thread) /\
  libos_syscall_setgid 5 root_thread = (0, mk_thread 0 0 0 5 5 5 no_groups).
Proof.
  assert (H1 : uid gid0_thread <> 0) by (simpl; lia).
  assert (H2 : 5 <> gid gid0_thread) by (simpl; lia).
  assert (H3 : 5 <> sgid gid0_thread) by (simpl; lia).
  split; [exact H1 |]. split; [reflexivity |]. split.
  - exact (proj1 (proj2 (setgid_privilege_is_real_uid 5 gid0_thread)) H1 H2 H3).
  - exact (proj1 (setgid_privilege_is_real_uid 5 root_thread) eq_refl).
Defined.

(** ** setreuid *)

(** C1: when the effective user ID is 0 at entry, setreuid returns 0 whatever
    the arguments are and applies them: a real user ID that is not the
    sentinel is stored, an effective user ID that is not the sentinel is
    stored, and the saved user ID follows the new effective one when the real
    ID was given or the new effective ID differs from the real one. *)
Theorem setreuid_privileged_permitted (ruid arg_euid : uid_t)
    (t : libos_thread) :
  is_id ruid -> is_id arg_euid -> euid t = 0 ->
  let new_uid := if ruid =? sentinel then uid t else ruid in
  let new_euid := if arg_euid =? sentinel then euid t else arg_euid in
  let refresh :=
    negb (ruid =? sentinel) ||
    (negb (arg_euid =? sentinel) && negb (new_uid =? arg_euid)) in
  libos_syscall_setreuid ruid arg_euid t =
    (0, mk_thread new_uid new_euid (if refresh then new_euid else suid t)
          (gid t) (egid t) (sgid t) (groups_info t)).
Proof.
  intros Hr He Hroot. destruct t as [u e s g eg sg gi]. simpl in *. subst e.
  unfold libos_syscall_setreuid. sentinel_tests. simpl.
  destruct (Z.eqb_spec ruid sentinel), (Z.eqb_spec arg_euid sentinel); simpl;
    split_eqb; split_eqb_hyps; simpl in *; reflexivity || congruence.
Qed.

Lemma setreuid_privileged_permitted_witness :
  is_id 7 /\ is_id 8 /\ euid setuid_root_thread = 0 /\
  libos_syscall_setreuid 7 8 setuid_root_thread =
    (0, mk_thread 7 8 8 1000 1000 1000 no_groups).
Proof.
  assert (H1 : is_id 7) by (unfold is_id; lia).
  assert (H2 : is_id 8) by (unfold is_id; lia).
  exact (conj H1 (conj H2 (conj eq_refl
           (setreuid_privileged_permitted 7 8 setuid_root_thread
              H1 H2 eq_refl)))).
Defined.

(** C7: setreuid(-1, -1) returns 0 and leaves the record as it was, whatever
    the caller's identities are. *)
Theorem setreuid_both_sentinel_noop (t : libos_thread) :
  libos_syscall_setreuid sentinel sentinel t = (0, t).
Proof.
  unfold libos_syscall_setreuid. rewrite cast_int_sentinel. simpl.
  destruct (euid t =? 0); reflexivity.
Qed.

(** C2, as the specification states it, fails: from {uid=1000, euid=0,
    suid=0} the call setreuid(-1, 1000) returns 0 and makes the effective
    user ID 1000, but the saved user ID is not 1000 afterwards. *)
Lemma setreuid_scenario_suid_not_1000 :
  ~ ((libos_syscall_setreuid sentinel 1000 setuid_root_thread).1 = 0 /\
     euid (libos_syscall_setreuid sentinel 1000 setuid_root_thread).2 = 1000 /\
     suid (libos_syscall_setreuid sentinel 1000 setuid_root_thread).2 = 1000).
Proof. vm_compute. intros (_ & _ & Hs). discriminate Hs. Qed.

(** C2, amended: from {uid=1000, euid=0, suid=0} the call setreuid(-1, 1000)
    returns 0; afterwards the effective user ID is 1000 and the saved user ID
    is still 0, since the real ID was not given and the new effective ID
    equals the real one. *)
Theorem setreuid_scenario_suid_kept (t : libos_thread) :
  uid t = 1000 -> euid t = 0 -> suid t = 0 ->
  libos_syscall_setreuid sentinel 1000 t =
    (0, mk_thread 1000 1000 0 (gid t) (egid t) (sgid t) (groups_info t)).
Proof.
  intros Hu He Hs. destruct t as [u e s g eg sg gi]. simpl in *. subst.
  reflexivity.
Qed.

Lemma setreuid_scenario_suid_kept_witness :
  uid setuid_root_thread = 1000 /\ euid setuid_root_thread = 0 /\
  suid setuid_root_thread = 0 /\
  libos_syscall_setreuid sentinel 1000 setuid_root_thread =
    (0, mk_thread 1000 1000 0 1000 1000 1000 no_groups).
Proof.
  exact (conj eq_refl (conj eq_refl (conj eq_refl
           (setreuid_scenario_suid_kept setuid_root_thread
              eq_refl eq_refl eq_refl)))).
Defined.

(** ** setresuid *)

(** C4: setresuid by a caller whose effective user ID is not 0 returns -EPERM
    and changes nothing as soon as one argument, not the sentinel, differs
    from the real, effective and saved user IDs, whatever the other two
    arguments are. *)
Theorem setresuid_unprivileged_all_or_nothing (ruid arg_euid arg_suid : uid_t)
    (t : libos_thread) :
  is_id ruid -> is_id arg_euid -> is_id arg_suid ->
  euid t <> 0 ->
  outside_held ruid t \/ outside_held arg_euid t \/ outside_held arg_suid t ->
  libos_syscall_setresuid ruid arg_euid arg_suid t = (- EPERM, t).
Proof.
  intros Hr He Hs Hroot Hout. unfold libos_syscall_setresuid, outside_held in *.
  sentinel_tests.
  destruct (Z.eqb_spec (euid t) 0) as [| _]; [contradiction |]. simpl.
  split_eqb; try reflexivity; exfalso; intuition congruence.
Qed.

Lemma setresuid_unprivileged_all_or_nothing_witness :
  is_id 1000 /\ is_id 1000 /\ is_id 0 /\ euid user_thread <> 0 /\
  outside_held 0 user_thread /\
  libos_syscall_setresuid 1000 1000 0 user_thread = (- EPERM, user_thread).
Proof.
  assert (H1 : is_id 1000) by (unfold is_id; lia).
  assert (H2 : is_id 0) by (unfold is_id; lia).
  assert (H3 : euid user_thread <> 0) by (simpl; lia).
  assert (H4 : outside_held 0 user_thread)
    by (unfold outside_held, sentinel; simpl; lia).
  exact (conj H1 (conj H1 (conj H2 (conj H3 (conj H4
           (setresuid_unprivileged_all_or_nothing 1000 1000 0 user_thread
              H1 H1 H2 H3 (or_intror (or_intror H4)))))))).
Defined.

(** ** The sentinel *)

Lemma setreuid_sentinel_ruid (b : uid_t) (t : libos_thread) :
  uid (libos_syscall_setreuid sentinel b t).2 = uid t.
Proof.
  unfold libos_syscall_setreuid. rewrite cast_int_sentinel. simpl.
  repeat (case_match; simpl; try reflexivity).
Qed.

Lemma setreuid_sentinel_euid (a : uid_t) (t : libos_thread) :
  euid (libos_syscall_setreuid a sentinel t).2 = euid t.
Proof.
  unfold libos_syscall_setreuid. rewrite cast_int_sentinel. simpl.
  rewrite andb_false_r.
  repeat (case_match; simpl; try reflexivity).
Qed.

Lemma setreuid_sentinel_free (a b : uid_t) (t : libos_thread) :
  is_id a -> is_id b ->
  sentinel_free t -> sentinel_free (libos_syscall_setreuid a b t).2.
Proof.
  intros Ha Hb (Hu & He & Hs). unfold libos_syscall_setreuid, sentinel_free.
  sentinel_tests.
  destruct (Z.eqb_spec a sentinel), (Z.eqb_spec b sentinel); simpl;
    repeat (case_match; simpl); auto.
Qed.

Lemma setresuid_sentinel_fields (a b c : uid_t) (t : libos_thread) :
  uid (libos_syscall_setresuid sentinel b c t).2 = uid t /\
  euid (libos_syscall_setresuid a sentinel c t).2 = euid t /\
  suid (libos_syscall_setresuid a b sentinel t).2 = suid t.
Proof.
  unfold libos_syscall_setresuid. rewrite cast_int_sentinel. simpl.
  repeat split; repeat (case_match; simpl; try reflexivity).
Qed.

Lemma setresuid_sentinel_free (a b c : uid_t) (t : libos_thread) :
  is_id a -> is_id b -> is_id c ->
  sentinel_free t -> sentinel_free (libos_syscall_setresuid a b c t).2.
Proof.
  intros Ha Hb Hc (Hu & He & Hs).
  unfold libos_syscall_setresuid, sentinel_free. sentinel_tests.
  destruct (Z.eqb_spec a sentinel), (Z.eqb_spec b sentinel),
           (Z.eqb_spec c sentinel); simpl;
    repeat (case_match; simpl); auto.
Qed.

(** C3, as the specification states it, fails: setuid and setgid have no
    leave-unchanged marker, and a caller whose real user ID is 0 that passes
    the all-ones value gets it stored as real, effective and saved ID. *)
Lemma setuid_setgid_store_all_ones :
  libos_syscall_setuid sentinel root_thread =
    (0, mk_thread 4294967295 4294967295 4294967295 0 0 0 no_groups) /\
  (libos_syscall_setuid sentinel root_thread).2 <> root_thread /\
  libos_syscall_setgid sentinel root_thread =
    (0, mk_thread 0 0 0 4294967295 4294967295 4294967295 no_groups) /\
  (libos_syscall_setgid sentinel root_thread).2 <> root_thread.
Proof.
  split; [reflexivity |]. split; [discriminate |].
  split; [reflexivity | discriminate].
Qed.

(** C3, amended: the all-ones argument is the leave-unchanged marker of
    setreuid and setresuid. There the field an all-ones argument stands for
    keeps its value, and a record none of whose user IDs is the all-ones value
    stays so. setuid and setgid take their argument as an identity value
    whatever it is: for a caller whose real user ID is 0, the all-ones value
    becomes the real, effective and saved ID. *)
Theorem sentinel_marks_setreuid_setresuid_only (a b c : uid_t)
    (t : libos_thread) :
  is_id a -> is_id b -> is_id c ->
  uid (libos_syscall_setreuid sentinel b t).2 = uid t /\
  euid (libos_syscall_setreuid a sentinel t).2 = euid t /\
  (sentinel_free t -> sentinel_free (libos_syscall_setreuid a b t).2) /\
  uid (libos_syscall_setresuid sentinel b c t).2 = uid t /\
  euid (libos_syscall_setresuid a sentinel c t).2 = euid t /\
  suid (libos_syscall_setresuid a b sentinel t).2 = suid t /\
  (sentinel_free t -> sentinel_free (libos_syscall_setresuid a b c t).2) /\
  (uid t = 0 ->
   libos_syscall_setuid sentinel t =
     (0, mk_thread sentinel sentinel sentinel (gid t) (egid t) (sgid t)
           (groups_info t))) /\
  (uid t = 0 ->
   libos_syscall_setgid sentinel t =
     (0, mk_thread (uid t) (euid t) (suid t) sentinel sentinel sentinel
           (groups_info t))).
Proof.
  intros Ha Hb Hc.
  destruct (setresuid_sentinel_fields a b c t) as (H1 & H2 & H3).
  split; [apply setreuid_sentinel_ruid |].
  split; [apply setreuid_sentinel_euid |].
  split; [apply setreuid_sentinel_free; assumption |].
  split; [exact H1 |]. split; [exact H2 |]. split; [exact H3 |].
  split; [apply setresuid_sentinel_free; assumption |].
  split; intros Hroot.
  - unfold libos_syscall_setuid.
    destruct (Z.eqb_spec (uid t) 0); [reflexivity | contradiction].
  - unfold libos_syscall_setgid.
    destruct (Z.eqb_spec (uid t) 0); [reflexivity | contradiction].
Qed.

Lemma sentinel_marks_setreuid_setresuid_only_witness :
  is_id 1000 /\ is_id 0 /\ is_id 5 /\
  uid (libos_syscall_setreuid sentinel 0 root_thread).2 = uid root_thread /\
  libos_syscall_setuid sentinel root_thread =
     (0, mk_thread sentinel sentinel sentinel 0 0 0 no_groups).
Proof.
  assert (H1 : is_id 1000) by (unfold is_id; lia).
  assert (H2 : is_id 0) by (unfold is_id; lia).
  assert (H3 : is_id 5) by (unfold is_id; lia).
  pose proof (sentinel_marks_setreuid_setresuid_only 1000 0 5 root_thread
                H1 H2 H3) as (Hu & _ & _ & _ & _ & _ & _ & Hs & _).
  exact (conj H1 (conj H2 (conj H3 (conj Hu (Hs eq_refl))))).
Defined.

(** ** Supplementary groups *)

(** A copy loop that stays inside both arrays overwrites the cells [i] to
    [i + n - 1] of the destination with those of the source. *)
Lemma copy_ids_in_bounds (n : nat) :
  forall (i : nat) (src dst : list gid_t),
    (i + n <= length src)%nat -> (i + n <= length dst)%nat ->
    copy_ids n i src dst =
      Some (take i dst ++ take n (drop i src) ++ drop (i + n) dst).
Proof.
  induction n as [| n IH]; intros i src dst Hsrc Hdst; simpl.
  - rewrite Nat.add_0_r, take_drop. reflexivity.
  - destruct (lookup_lt_is_Some_2 src i ltac:(lia)) as [v Hv].
    rewrite Hv. destruct (decide (i < length dst)%nat) as [Hi | Hi]; [| lia].
    rewrite IH by (rewrite ?length_insert; lia).
    f_equal.
    rewrite (take_S_r (<[i := v]> dst) i v)
      by (apply list_lookup_insert_eq; exact Hi).
    rewrite take_insert_ge by lia.
    rewrite drop_insert_lt by lia.
    rewrite (drop_S src v i Hv). simpl.
    rewrite <- app_assoc. simpl.
    replace (i + S n)%nat with (S (i + n)) by lia. reflexivity.
Qed.

(** Copying a whole array over another of the same length gives the source. *)
Lemma copy_ids_whole (src dst : list gid_t) :
  length dst = length src ->
  copy_ids (length src) 0 src dst = Some src.
Proof.
  intros Hlen. rewrite copy_ids_in_bounds by (simpl; lia).
  simpl. rewrite drop_0, (drop_ge dst), (take_ge src) by lia.
  rewrite app_nil_r. reflexivity.
Qed.

(** Copying an array to the front of a buffer that can hold it. *)
Lemma copy_ids_prefix (src dst : list gid_t) :
  (length src <= length dst)%nat ->
  copy_ids (length src) 0 src dst = Some (src ++ drop (length src) dst).
Proof.
  intros Hlen. rewrite copy_ids_in_bounds by (simpl; lia).
  simpl. rewrite drop_0, (take_ge src) by lia. reflexivity.
Qed.

(** A copy loop does not change the length of the destination. *)
Lemma copy_ids_length (n : nat) :
  forall (i : nat) (src dst out : list gid_t),
    copy_ids n i src dst = Some out -> length out = length dst.
Proof.
  induction n as [| n IH]; intros i src dst out; simpl.
  - intros [= <-]. reflexivity.
  - destruct (src !! i) as [v |]; [| discriminate].
    destruct (decide (i < length dst)%nat); [| discriminate].
    intros Hout. apply IH in Hout. rewrite Hout. apply length_insert.
Qed.

Lemma scaled_size_small (n : Z) :
  0 <= n < 2 ^ 31 ->
  cast_size_t (cast_size_t n * sizeof_gid_t) = n * sizeof_gid_t.
Proof.
  intros Hn. unfold sizeof_gid_t.
  rewrite (cast_size_t_small n) by lia. apply cast_size_t_small. lia.
Qed.

Section GroupsProperties.

Variable is_user_memory_readable : list gid_t -> Z -> bool.
Variable is_user_memory_writable : list gid_t -> Z -> bool.
Variable malloc : Z -> option (list gid_t).

(** X24: setgroups keeps the invariant of the group list, whatever it
    returns: if [count] was the length of the group array and at most 65536
    before the call, it is so afterwards, provided the allocator hands out
    arrays of the length asked for. *)
Lemma setgroups_groups_info_ok (n : Z) (ids : list gid_t)
    (t t' : libos_thread) (ret : Z) :
  (forall sz a, malloc sz = Some a ->
                Z.of_nat (length a) * sizeof_gid_t = sz) ->
  is_int n ->
  groups_info_ok t -> count (groups_info t) <= NGROUPS_MAX ->
  libos_syscall_setgroups is_user_memory_readable malloc n ids t =
    Some (ret, t') ->
  groups_info_ok t' /\ count (groups_info t') <= NGROUPS_MAX.
Proof.
  intros Hmalloc Hint Hok Hmax. unfold libos_syscall_setgroups, is_int in *.
  destruct (Z.ltb_spec n 0) as [Hneg | Hpos]; simpl.
  { intros [= <- <-]. auto. }
  destruct (Z.gtb_spec (cast_uint n) NGROUPS_MAX) as [Hbig | Hsmall]; simpl.
  { intros [= <- <-]. auto. }
  destruct (Z.eqb_spec n 0) as [Hz | Hnz].
  { intros [= <- <-]. unfold groups_info_ok, groups_array, NGROUPS_MAX.
    simpl. lia. }
  rewrite cast_uint_small in Hsmall by lia. unfold NGROUPS_MAX in *.
  rewrite scaled_size_small, (cast_size_t_small n) by lia.
  destruct (is_user_memory_readable ids _); simpl;
    [| intros [= <- <-]; auto].
  destruct (malloc _) as [a |] eqn:Ha; [| intros [= <- <-]; auto].
  apply Hmalloc in Ha.
  destruct (copy_ids _ _ _ _) as [out |] eqn:Hcopy; [| discriminate].
  apply copy_ids_length in Hcopy. intros [= <- <-].
  unfold groups_info_ok, groups_array, sizeof_gid_t in *. simpl. lia.
Qed.

(** C8: for 0 <= N <= 65536 and a list of N group IDs, with the boundary
    checks passing and the allocation succeeding, setgroups(N, list) returns
    0 and a following getgroups(N, buffer) returns N and leaves in the
    buffer the N identifiers of the list, in the same order. *)
Theorem setgroups_getgroups_roundtrip (N : Z)
    (ids buffer fresh : list gid_t) (t : libos_thread) :
  0 <= N <= NGROUPS_MAX ->
  Z.of_nat (length ids) = N ->
  Z.of_nat (length buffer) = N ->
  is_user_memory_readable ids (N * sizeof_gid_t) = true ->
  malloc (N * sizeof_gid_t) = Some fresh ->
  Z.of_nat (length fresh) = N ->
  is_user_memory_writable buffer (N * sizeof_gid_t) = true ->
  exists t' : libos_thread,
    libos_syscall_setgroups is_user_memory_readable malloc N ids t =
      Some (0, t') /\
    libos_syscall_getgroups is_user_memory_writable N buffer t' =
      Some (N, ids).
Proof.
  unfold NGROUPS_MAX. intros HN Hids Hbuf Hread Hmalloc Hfresh Hwrite.
  unfold libos_syscall_setgroups, libos_syscall_getgroups.
  destruct (Z.ltb_spec N 0) as [Hneg | _]; [lia |].
  rewrite cast_uint_small by lia.
  destruct (Z.gtb_spec N NGROUPS_MAX) as [Hbig | _];
    [unfold NGROUPS_MAX in Hbig; lia |].
  rewrite scaled_size_small, Hwrite by lia. simpl.
  destruct (Z.eqb_spec N 0) as [Hz | Hnz].
  - (* N = 0: the list is dropped and getgroups only reports the count *)
    eexists. split; [reflexivity |]. simpl. rewrite Hz.
    destruct ids; [| simpl in Hids; lia].
    destruct buffer; [reflexivity | simpl in Hbuf; lia].
  - rewrite Hread, (cast_size_t_small N), Hmalloc by lia. simpl.
    replace (Z.to_nat N) with (length ids) by lia.
    rewrite copy_ids_whole by lia.
    eexists. split; [reflexivity |].
    unfold groups_array. simpl.
    rewrite (cast_size_t_small N) by lia.
    destruct (Z.gtb_spec N N) as [Habs | _]; [lia |].
    replace (Z.to_nat N) with (length ids) by lia.
    rewrite copy_ids_whole by lia.
    rewrite cast_int_small by (unfold is_int; lia). reflexivity.
Qed.

(** C9: getgroups(size, buffer) with 0 < size and a writable buffer of
    size cells returns -EINVAL and leaves the buffer as it was when the
    current group count exceeds size; otherwise it copies the current group
    identifiers to the front of the buffer and returns their count. *)
Theorem getgroups_einval_or_copy (size : Z) (buffer : list gid_t)
    (t : libos_thread) :
  0 < size -> is_int size ->
  Z.of_nat (length buffer) = size ->
  is_user_memory_writable buffer (size * sizeof_gid_t) = true ->
  groups_info_ok t ->
  (size < count (groups_info t) ->
   libos_syscall_getgroups is_user_memory_writable size buffer t =
     Some (- EINVAL, buffer)) /\
  (count (groups_info t) <= size ->
   libos_syscall_getgroups is_user_memory_writable size buffer t =
     Some (count (groups_info t),
           groups_array t ++ drop (length (groups_array t)) buffer)).
Proof.
  unfold is_int, groups_info_ok. intros Hpos Hint Hbuf Hwrite [Hrange Hcount].
  unfold libos_syscall_getgroups.
  destruct (Z.ltb_spec size 0) as [Hneg | _]; [lia |].
  rewrite scaled_size_small, Hwrite by lia. simpl.
  destruct (Z.eqb_spec size 0) as [Hz | _]; [lia |]. simpl.
  rewrite (cast_size_t_small size), (cast_size_t_small (count _)) by lia.
  split; intros Hcmp.
  - destruct (Z.gtb_spec (count (groups_info t)) size); [reflexivity | lia].
  - destruct (Z.gtb_spec (count (groups_info t)) size) as [Habs | _];
      [lia |].
    rewrite Hcount at 1. rewrite Nat2Z.id.
    rewrite copy_ids_prefix by lia.
    rewrite cast_int_small by (unfold is_int; lia). reflexivity.
Qed.

End GroupsProperties.

Lemma setgroups_getgroups_roundtrip_witness :
  0 <= 3 <= NGROUPS_MAX /\
  region_inside [10; 20; 30] (3 * sizeof_gid_t) = true /\
  malloc_zeroed (3 * sizeof_gid_t) = Some [0; 0; 0] /\
  region_inside [7; 7; 7] (3 * sizeof_gid_t) = true /\
  exists t' : libos_thread,
    libos_syscall_setgroups region_inside malloc_zeroed 3 [10; 20; 30]
      user_thread = Some (0, t') /\
    libos_syscall_getgroups region_inside 3 [7; 7; 7] t' =
      Some (3, [10; 20; 30]).
Proof.
  assert (H1 : 0 <= 3 <= NGROUPS_MAX) by (unfold NGROUPS_MAX; lia).
  exact (conj H1 (conj eq_refl (conj eq_refl (conj eq_refl
           (setgroups_getgroups_roundtrip region_inside region_inside
              malloc_zeroed 3 [10; 20; 30] [7; 7; 7] [0; 0; 0] user_thread
              H1 eq_refl eq_refl eq_refl eq_refl eq_refl eq_refl))))).
Defined.

Lemma getgroups_einval_or_copy_witness :
  0 < 3 /\ is_int 3 /\ groups_info_ok two_groups_thread /\
  libos_syscall_getgroups region_inside 3 [7; 7; 7] two_groups_thread =
    Some (2, [4; 5; 7]).
Proof.
  assert (H1 : 0 < 3) by lia.
  assert (H2 : is_int 3) by (unfold is_int; lia).
  assert (H3 : groups_info_ok two_groups_thread)
    by (unfold groups_info_ok; simpl; lia).
  assert (H4 : count (groups_info two_groups_thread) <= 3) by (simpl; lia).
  exact (conj H1 (conj H2 (conj H3
           (proj2 (getgroups_einval_or_copy region_inside 3 [7; 7; 7]
                     two_groups_thread H1 H2 eq_refl eq_refl H3) H4)))).
Defined.

(** * Further properties of the user and group ID calls *)

(** X1: each of setuid, setgid, setreuid and setresuid returns 0 or -EPERM,
    and when it returns -EPERM the record is exactly as before the call. *)
Theorem id_setters_zero_or_eperm (a b c : uid_t) (t : libos_thread) :
  zero_or_eperm t (libos_syscall_setuid a t) /\
  zero_or_eperm t (libos_syscall_setgid a t) /\
  zero_or_eperm t (libos_syscall_setreuid a b t) /\
  zero_or_eperm t (libos_syscall_setresuid a b c t).
Proof.
  unfold zero_or_eperm, libos_syscall_setuid, libos_syscall_setgid,
    libos_syscall_setreuid, libos_syscall_setresuid.
  split; [| split; [| split]];
    split_eqb; split_eqb_hyps; simpl in *;
    solve [left; reflexivity | right; reflexivity | congruence].
Qed.

(** X2: setuid, setreuid and setresuid never touch the group IDs or the
    supplementary groups, and setgid never touches the user IDs or the
    supplementary groups. *)
Theorem id_setters_frame (a b c : uid_t) (t : libos_thread) :
  same_group_side t (libos_syscall_setuid a t).2 /\
  same_group_side t (libos_syscall_setreuid a b t).2 /\
  same_group_side t (libos_syscall_setresuid a b c t).2 /\
  same_user_side t (libos_syscall_setgid a t).2.
Proof.
  unfold same_group_side, same_user_side, libos_syscall_setuid,
    libos_syscall_setgid, libos_syscall_setreuid, libos_syscall_setresuid.
  split; [| split; [| split]];
    split_eqb; split_eqb_hyps; simpl in *;
    solve [auto | congruence].
Qed.

(** X3: setuid by a caller whose real user ID is not 0, to its real or its
    saved user ID, returns 0 and changes the effective user ID only. *)
Theorem setuid_unprivileged_permitted (id : uid_t) (t : libos_thread) :
  uid t <> 0 -> id = uid t \/ id = suid t ->
  libos_syscall_setuid id t =
    (0, mk_thread (uid t) id (suid t) (gid t) (egid t) (sgid t)
          (groups_info t)).
Proof.
  intros Hroot Hheld. unfold libos_syscall_setuid.
  destruct Hheld; split_eqb; reflexivity || congruence.
Qed.

Lemma setuid_unprivileged_permitted_witness :
  uid saved_root_thread <> 0 /\ 0 = suid saved_root_thread /\
  libos_syscall_setuid 0 saved_root_thread =
    (0, mk_thread 1000 0 0 1000 1000 1000 no_groups).
Proof.
  assert (H1 : uid saved_root_thread <> 0) by (simpl; lia).
  exact (conj H1 (conj eq_refl
           (setuid_unprivileged_permitted 0 saved_root_thread H1
              (or_intror eq_refl)))).
Defined.

(** X4: for a caller whose effective user ID is not 0, setreuid returns 0
    exactly in four cases: both arguments are the sentinel; only the real ID
    is given and equals the effective ID; only the effective ID is given and
    equals the real or the saved ID; both are given and each equals the real
    or the effective ID. In every other case it returns -EPERM and changes
    nothing. *)
Theorem setreuid_unprivileged_permission (ruid arg_euid : uid_t)
    (t : libos_thread) :
  is_id ruid -> is_id arg_euid -> euid t <> 0 ->
  (setreuid_permitted ruid arg_euid t ->
   (libos_syscall_setreuid ruid arg_euid t).1 = 0) /\
  (~ setreuid_permitted ruid arg_euid t ->
   libos_syscall_setreuid ruid arg_euid t = (- EPERM, t)).
Proof.
  intros Hr He Hroot. unfold setreuid_permitted, libos_syscall_setreuid.
  sentinel_tests.
  destruct (Z.eqb_spec (euid t) 0) as [| _]; [contradiction |].
  destruct (Z.eqb_spec ruid sentinel), (Z.eqb_spec arg_euid sentinel); simpl;
    split; intros Hperm;
    split_eqb; split_eqb_hyps; simpl in *;
    try reflexivity; exfalso;
    solve [intuition congruence | unfold EPERM in *; lia].
Qed.

Lemma setreuid_unprivileged_permission_witness :
  is_id 0 /\ is_id 1000 /\ euid saved_root_thread <> 0 /\
  (libos_syscall_setreuid sentinel 0 saved_root_thread).1 = 0 /\
  libos_syscall_setreuid 0 1000 saved_root_thread =
    (- EPERM, saved_root_thread).
Proof.
  assert (H0 : is_id 0) by (unfold is_id; lia).
  assert (H1 : is_id 1000) by (unfold is_id; lia).
  assert (Hs : is_id sentinel) by (unfold is_id, sentinel; lia).
  assert (H2 : euid saved_root_thread <> 0) by (simpl; lia).
  assert (H3 : setreuid_permitted sentinel 0 saved_root_thread)
    by (unfold setreuid_permitted, sentinel; simpl; lia).
  assert (H4 : ~ setreuid_permitted 0 1000 saved_root_thread)
    by (unfold setreuid_permitted, sentinel; simpl; lia).
  exact (conj H0 (conj H1 (conj H2 (conj
           (proj1 (setreuid_unprivileged_permission sentinel 0
                     saved_root_thread Hs H0 H2) H3)
           (proj2 (setreuid_unprivileged_permission 0 1000
                     saved_root_thread H0 H1 H2) H4))))).
Defined.

(** X5: whenever setreuid returns 0, privileged or not, the real and the
    effective user ID are the arguments that are not the sentinel, and the
    saved user ID becomes the new effective ID if the real ID was given or
    the effective ID was given and differs from the new real ID; otherwise
    the saved ID keeps its value. *)
Theorem setreuid_success_effect (ruid arg_euid : uid_t) (t : libos_thread) :
  is_id ruid -> is_id arg_euid ->
  (libos_syscall_setreuid ruid arg_euid t).1 = 0 ->
  let new_uid := keep_or_set ruid (uid t) in
  let new_euid := keep_or_set arg_euid (euid t) in
  let refresh :=
    negb (ruid =? sentinel) ||
    (negb (arg_euid =? sentinel) && negb (new_uid =? arg_euid)) in
  (libos_syscall_setreuid ruid arg_euid t).2 =
    mk_thread new_uid new_euid (if refresh then new_euid else suid t)
      (gid t) (egid t) (sgid t) (groups_info t).
Proof.
  intros Hr He. destruct t as [u e s g eg sg gi].
  unfold libos_syscall_setreuid, keep_or_set. sentinel_tests. simpl.
  destruct (Z.eqb_spec ruid sentinel), (Z.eqb_spec arg_euid sentinel); simpl;
    split_eqb; split_eqb_hyps; simpl in *; intros Hret;
    reflexivity || (exfalso; unfold EPERM in *; lia) || congruence.
Qed.

Lemma setreuid_success_effect_witness :
  is_id sentinel /\ is_id 0 /\
  (libos_syscall_setreuid sentinel 0 saved_root_thread).1 = 0 /\
  (libos_syscall_setreuid sentinel 0 saved_root_thread).2 =
    mk_thread 1000 0 0 1000 1000 1000 no_groups.
Proof.
  assert (H0 : is_id 0) by (unfold is_id; lia).
  assert (Hs : is_id sentinel) by (unfold is_id, sentinel; lia).
  exact (conj Hs (conj H0 (conj eq_refl
           (setreuid_success_effect sentinel 0 saved_root_thread
              Hs H0 eq_refl)))).
Defined.

(** X6: setreuid called with the current effective and real user IDs, in
    that order, is always permitted and swaps the two, the saved ID becoming
    the new effective ID; a second swap gives back the original real and
    effective IDs. *)
Theorem setreuid_swap_twice (t : libos_thread) :
  is_id (uid t) -> is_id (euid t) ->
  uid t <> sentinel -> euid t <> sentinel ->
  let r1 := libos_syscall_setreuid (euid t) (uid t) t in
  let r2 := libos_syscall_setreuid (euid r1.2) (uid r1.2) r1.2 in
  r1 = (0, mk_thread (euid t) (uid t) (uid t) (gid t) (egid t) (sgid t)
             (groups_info t)) /\
  r2 = (0, mk_thread (uid t) (euid t) (euid t) (gid t) (egid t) (sgid t)
             (groups_info t)).
Proof.
  intros Hu He Hus Hes. destruct t as [u e s g eg sg gi]. simpl in *.
  assert (Hswap : forall s0,
    libos_syscall_setreuid e u (mk_thread u e s0 g eg sg gi) =
      (0, mk_thread e u u g eg sg gi)).
  { intros s0. unfold libos_syscall_setreuid.
    rewrite (cast_int_id e He), (cast_int_id u Hu). simpl.
    destruct (Z.eqb_spec e sentinel); [contradiction |].
    destruct (Z.eqb_spec u sentinel); [contradiction |]. simpl.
    rewrite !Z.eqb_refl. simpl. rewrite !orb_true_r. simpl.
    destruct (e =? 0), (e =? u); reflexivity. }
  split; [apply Hswap |].
  rewrite Hswap. simpl.
  unfold libos_syscall_setreuid.
  rewrite (cast_int_id e He), (cast_int_id u Hu). simpl.
  destruct (Z.eqb_spec e sentinel); [contradiction |].
  destruct (Z.eqb_spec u sentinel); [contradiction |]. simpl.
  rewrite !Z.eqb_refl. simpl. rewrite !orb_true_r. simpl.
  destruct (u =? 0), (u =? e); reflexivity.
Qed.

Lemma setreuid_swap_twice_witness :
  is_id (uid two_ids_thread) /\ is_id (euid two_ids_thread) /\
  libos_syscall_setreuid 33 1000 two_ids_thread =
    (0, mk_thread 33 1000 1000 1000 1000 1000 no_groups).
Proof.
  assert (H1 : is_id (uid two_ids_thread)) by (unfold is_id; simpl; lia).
  assert (H2 : is_id (euid two_ids_thread)) by (unfold is_id; simpl; lia).
  assert (H3 : uid two_ids_thread <> sentinel)
    by (unfold sentinel; simpl; lia).
  assert (H4 : euid two_ids_thread <> sentinel)
    by (unfold sentinel; simpl; lia).
  exact (conj H1 (conj H2
           (proj1 (setreuid_swap_twice two_ids_thread H1 H2 H3 H4)))).
Defined.

(** X7: setresuid returns 0 when the effective user ID is 0, or when each
    argument is the sentinel or one of the real, effective and saved user
    IDs; it then assigns exactly the arguments that are not the sentinel,
    each to its own field. *)
Theorem setresuid_permitted_effect (ruid arg_euid arg_suid : uid_t)
    (t : libos_thread) :
  is_id ruid -> is_id arg_euid -> is_id arg_suid ->
  euid t = 0 \/
  ((ruid = sentinel \/ held t ruid) /\
   (arg_euid = sentinel \/ held t arg_euid) /\
   (arg_suid = sentinel \/ held t arg_suid)) ->
  libos_syscall_setresuid ruid arg_euid arg_suid t =
    (0, mk_thread (keep_or_set ruid (uid t)) (keep_or_set arg_euid (euid t))
          (keep_or_set arg_suid (suid t))
          (gid t) (egid t) (sgid t) (groups_info t)).
Proof.
  intros Hr He Hs Hperm. destruct t as [u e s g eg sg gi].
  unfold libos_syscall_setresuid, keep_or_set, held in *. sentinel_tests.
  simpl in *.
  destruct (Z.eqb_spec ruid sentinel), (Z.eqb_spec arg_euid sentinel),
           (Z.eqb_spec arg_suid sentinel); simpl;
    split_eqb; try reflexivity; exfalso; intuition congruence.
Qed.

Lemma setresuid_permitted_effect_witness :
  is_id sentinel /\ is_id 0 /\ is_id 1000 /\
  libos_syscall_setresuid sentinel 0 1000 saved_root_thread =
    (0, mk_thread 1000 0 1000 1000 1000 1000 no_groups).
Proof.
  assert (H0 : is_id 0) by (unfold is_id; lia).
  assert (H1 : is_id 1000) by (unfold is_id; lia).
  assert (Hs : is_id sentinel) by (unfold is_id, sentinel; lia).
  assert (Hp : euid saved_root_thread = 0 \/
               ((sentinel = sentinel \/ held saved_root_thread sentinel) /\
                (0 = sentinel \/ held saved_root_thread 0) /\
                (1000 = sentinel \/ held saved_root_thread 1000))).
  { right. unfold held. simpl. split; [left; reflexivity |].
    split; right; [right; right | left]; reflexivity. }
  exact (conj Hs (conj H0 (conj H1
           (setresuid_permitted_effect sentinel 0 1000 saved_root_thread
              Hs H0 H1 Hp)))).
Defined.

(** One call by a caller whose real and effective user IDs are not 0 leaves
    in the record only user IDs that were in it. *)
Lemma run_uid_call_held (c : uid_call) (t : libos_thread) (x : uid_t) :
  uid t <> 0 -> euid t <> 0 ->
  held (run_uid_call c t).2 x -> held t x.
Proof.
  intros Hu He. unfold held.
  destruct c as [a | a b | a b c]; simpl;
    [unfold libos_syscall_setuid | unfold libos_syscall_setreuid
     | unfold libos_syscall_setresuid];
    (destruct (Z.eqb_spec (uid t) 0) as [| _]; [contradiction |]) ||
    (destruct (Z.eqb_spec (euid t) 0) as [| _]; [contradiction |]);
    simpl; split_eqb; split_eqb_hyps; simpl in *;
    solve [intuition congruence | exfalso; unfold EPERM in *; lia].
Qed.

(** The same for a sequence of calls, when no user ID is 0 at the start. *)
Lemma run_uid_calls_held (cs : list uid_call) :
  forall (t : libos_thread) (x : uid_t),
    uid t <> 0 -> euid t <> 0 -> suid t <> 0 ->
    held (run_uid_calls cs t) x -> held t x.
Proof.
  induction cs as [| c cs IH]; intros t x Hu He Hs; simpl; [auto |].
  intros Hx.
  assert (Hstep : forall y, held (run_uid_call c t).2 y -> held t y)
    by (intros y; apply run_uid_call_held; assumption).
  assert (Hnz : forall y, held t y -> y <> 0)
    by (unfold held; intros y [-> | [-> | ->]]; assumption).
  apply Hstep. apply IH; [| | | exact Hx];
    apply Hnz, Hstep; unfold held; auto.
Qed.

(** X8: a thread none of whose user IDs is 0 gains no user ID through any
    sequence of setuid, setreuid and setresuid calls, whatever their
    arguments and results: every user ID it has afterwards is one of the
    three it had at the start, and so none is 0. *)
Theorem unprivileged_calls_gain_no_identity (cs : list uid_call)
    (t : libos_thread) :
  uid t <> 0 -> euid t <> 0 -> suid t <> 0 ->
  held t (uid (run_uid_calls cs t)) /\
  held t (euid (run_uid_calls cs t)) /\
  held t (suid (run_uid_calls cs t)) /\
  uid (run_uid_calls cs t) <> 0 /\
  euid (run_uid_calls cs t) <> 0 /\
  suid (run_uid_calls cs t) <> 0.
Proof.
  intros Hu He Hs.
  assert (Hnz : forall y, held t y -> y <> 0)
    by (unfold held; intros y [-> | [-> | ->]]; assumption).
  assert (H1 : held t (uid (run_uid_calls cs t)))
    by (apply (run_uid_calls_held cs); unfold held; auto).
  assert (H2 : held t (euid (run_uid_calls cs t)))
    by (apply (run_uid_calls_held cs); unfold held; auto).
  assert (H3 : held t (suid (run_uid_calls cs t)))
    by (apply (run_uid_calls_held cs); unfold held; auto).
  auto 10.
Qed.

Lemma unprivileged_calls_gain_no_identity_witness :
  uid two_ids_thread <> 0 /\ euid two_ids_thread <> 0 /\
  suid two_ids_thread <> 0 /\
  euid (run_uid_calls [call_setreuid 33 1000; call_setuid 0; call_setuid 33]
          two_ids_thread) <> 0.
Proof.
  assert (H1 : uid two_ids_thread <> 0) by (simpl; lia).
  assert (H2 : euid two_ids_thread <> 0) by (simpl; lia).
  assert (H3 : suid two_ids_thread <> 0) by (simpl; lia).
  pose proof (unprivileged_calls_gain_no_identity
                [call_setreuid 33 1000; call_setuid 0; call_setuid 33]
                two_ids_thread H1 H2 H3) as (_ & _ & _ & _ & He & _).
  exact (conj H1 (conj H2 (conj H3 He))).
Defined.

(** X9: when a caller whose real user ID is 0 calls setuid with an ID other
    than 0, its three user IDs become that ID and stay so through every later
    sequence of setuid, setreuid and setresuid calls. *)
Theorem setuid_drop_is_permanent (x : uid_t) (cs : list uid_call)
    (t : libos_thread) :
  uid t = 0 -> x <> 0 ->
  uid (run_uid_calls cs (libos_syscall_setuid x t).2) = x /\
  euid (run_uid_calls cs (libos_syscall_setuid x t).2) = x /\
  suid (run_uid_calls cs (libos_syscall_setuid x t).2) = x.
Proof.
  intros Hroot Hx.
  assert (Hset : libos_syscall_setuid x t =
                 (0, mk_thread x x x (gid t) (egid t) (sgid t)
                       (groups_info t))).
  { unfold libos_syscall_setuid.
    destruct (Z.eqb_spec (uid t) 0); [reflexivity | contradiction]. }
  rewrite Hset. simpl.
  set (t1 := mk_thread x x x (gid t) (egid t) (sgid t) (groups_info t)).
  assert (Hall : forall y, held (run_uid_calls cs t1) y -> y = x).
  { intros y Hy. apply (run_uid_calls_held cs t1) in Hy; try exact Hx.
    unfold held in Hy. simpl in Hy. intuition. }
  repeat split; apply Hall; unfold held; auto.
Qed.

Lemma setuid_drop_is_permanent_witness :
  uid root_thread = 0 /\ 1000 <> 0 /\
  euid (run_uid_calls [call_setuid 0; call_setresuid 0 0 0]
          (libos_syscall_setuid 1000 root_thread).2) = 1000.
Proof.
  assert (H1 : 1000 <> 0) by lia.
  pose proof (setuid_drop_is_permanent 1000
                [call_setuid 0; call_setresuid 0 0 0] root_thread
                eq_refl H1) as (_ & He & _).
  exact (conj eq_refl (conj H1 He)).
Defined.

(** X10: the order of dropping privileges matters. For a caller whose real
    user ID is 0, setuid to an ID other than 0 followed by setgid to a group
    that is neither the real nor the saved group ID fails with -EPERM and
    keeps the old group IDs, while setgid followed by setuid changes all six
    IDs. *)
Theorem setuid_before_setgid_is_refused (x : uid_t) (g : gid_t)
    (t : libos_thread) :
  uid t = 0 -> x <> 0 -> g <> gid t -> g <> sgid t ->
  libos_syscall_setgid g (libos_syscall_setuid x t).2 =
    (- EPERM, mk_thread x x x (gid t) (egid t) (sgid t) (groups_info t)) /\
  libos_syscall_setuid x (libos_syscall_setgid g t).2 =
    (0, mk_thread x x x g g g (groups_info t)).
Proof.
  intros Hroot Hx Hg Hsg.
  unfold libos_syscall_setuid, libos_syscall_setgid.
  destruct (Z.eqb_spec (uid t) 0) as [_ | ?]; [| contradiction]. simpl.
  destruct (Z.eqb_spec x 0) as [? | _]; [contradiction |].
  destruct (Z.eqb_spec (uid t) 0) as [_ | ?]; [| contradiction].
  destruct (Z.eqb_spec g (gid t)) as [? | _]; [contradiction |].
  destruct (Z.eqb_spec g (sgid t)) as [? | _]; [contradiction |].
  split; reflexivity.
Qed.

Lemma setuid_before_setgid_is_refused_witness :
  uid root_thread = 0 /\ 1000 <> 0 /\
  libos_syscall_setgid 100 (libos_syscall_setuid 1000 root_thread).2 =
    (- EPERM, mk_thread 1000 1000 1000 0 0 0 no_groups) /\
  libos_syscall_setuid 1000 (libos_syscall_setgid 100 root_thread).2 =
    (0, mk_thread 1000 1000 1000 100 100 100 no_groups).
Proof.
  assert (H1 : 1000 <> 0) by lia.
  assert (H2 : 100 <> gid root_thread) by (simpl; lia).
  assert (H3 : 100 <> sgid root_thread) by (simpl; lia).
  exact (conj eq_refl (conj H1
           (setuid_before_setgid_is_refused 1000 100 root_thread
              eq_refl H1 H2 H3))).
Defined.

(** X11: after a setuid that returned 0, geteuid returns the argument, and
    getuid returns it too if the real user ID was 0 and the old real ID
    otherwise; getegid and getgid after setgid likewise, the test being on
    the real user ID. *)
Theorem queries_after_setuid_setgid (id : uid_t) (t : libos_thread) :
  ((libos_syscall_setuid id t).1 = 0 ->
   libos_syscall_geteuid (libos_syscall_setuid id t).2 = id /\
   libos_syscall_getuid (libos_syscall_setuid id t).2 =
     (if uid t =? 0 then id else uid t)) /\
  ((libos_syscall_setgid id t).1 = 0 ->
   libos_syscall_getegid (libos_syscall_setgid id t).2 = id /\
   libos_syscall_getgid (libos_syscall_setgid id t).2 =
     (if uid t =? 0 then id else gid t)).
Proof.
  split; intros Hret;
    [destruct (queries_read_fields (libos_syscall_setuid id t).2)
       as (-> & -> & _ & _)
    | destruct (queries_read_fields (libos_syscall_setgid id t).2)
       as (_ & _ & -> & ->)];
    revert Hret; unfold libos_syscall_setuid, libos_syscall_setgid;
    split_eqb; intros Hret; simpl in *;
    solve [split; reflexivity | exfalso; unfold EPERM in *; lia].
Qed.

Lemma queries_after_setuid_setgid_witness :
  (libos_syscall_setuid 0 saved_root_thread).1 = 0 /\
  libos_syscall_geteuid (libos_syscall_setuid 0 saved_root_thread).2 = 0 /\
  libos_syscall_getuid (libos_syscall_setuid 0 saved_root_thread).2 = 1000.
Proof.
  exact (conj eq_refl
           (proj1 (queries_after_setuid_setgid 0 saved_root_thread) eq_refl)).
Defined.

(** ** The getresuid system call *)

(** What [getresuid] leaves in memory when the three pointers are three
    different cells. *)
Lemma getresuid_distinct (pr pe ps : Z) (t : libos_thread) (mem : gmap Z Z) :
  pr <> 0 -> pe <> 0 -> ps <> 0 -> pr <> pe -> pr <> ps -> pe <> ps ->
  getresuid pr pe ps t mem !! pr = Some (uid t) /\
  getresuid pr pe ps t mem !! pe = Some (euid t) /\
  getresuid pr pe ps t mem !! ps = Some (suid t) /\
  (forall q, q <> pr -> q <> pe -> q <> ps ->
             getresuid pr pe ps t mem !! q = mem !! q).
Proof.
  intros Hr He Hs Hre Hrs Hes. unfold getresuid, store_if_nonnull.
  destruct (Z.eqb_spec pr 0); [contradiction |].
  destruct (Z.eqb_spec pe 0); [contradiction |].
  destruct (Z.eqb_spec ps 0); [contradiction |].
  split; [| split; [| split]].
  - rewrite lookup_insert_ne, lookup_insert_ne by congruence.
    apply lookup_insert_eq.
  - rewrite lookup_insert_ne by congruence. apply lookup_insert_eq.
  - apply lookup_insert_eq.
  - intros q Hq1 Hq2 Hq3. rewrite !lookup_insert_ne by congruence.
    reflexivity.
Qed.

(** The user IDs after a setresuid that returned 0. *)
Lemma setresuid_success_fields (a b c : uid_t) (t : libos_thread) :
  is_id a -> is_id b -> is_id c ->
  (libos_syscall_setresuid a b c t).1 = 0 ->
  uid (libos_syscall_setresuid a b c t).2 = keep_or_set a (uid t) /\
  euid (libos_syscall_setresuid a b c t).2 = keep_or_set b (euid t) /\
  suid (libos_syscall_setresuid a b c t).2 = keep_or_set c (suid t).
Proof.
  intros Ha Hb Hc. unfold libos_syscall_setresuid, keep_or_set.
  sentinel_tests.
  destruct (Z.eqb_spec a sentinel), (Z.eqb_spec b sentinel),
           (Z.eqb_spec c sentinel); simpl;
    split_eqb; simpl; intros Hret;
    solve [repeat split | exfalso; unfold EPERM in *; lia].
Qed.

Section GetResUidProperties.

Variable is_user_memory_writable : Z -> Z -> bool.

(** X12: getresuid returns -EFAULT and writes to none of the three locations
    as soon as the boundary check rejects one of the three pointers, even if
    the other two are writable. *)
Theorem getresuid_fault_writes_nothing (pr pe ps : Z) (t : libos_thread)
    (mem : gmap Z Z) :
  is_user_memory_writable pr sizeof_uid_t = false \/
  is_user_memory_writable pe sizeof_uid_t = false \/
  is_user_memory_writable ps sizeof_uid_t = false ->
  libos_syscall_getresuid is_user_memory_writable pr pe ps t mem =
    (- EFAULT, mem).
Proof.
  intros Hfault. unfold libos_syscall_getresuid.
  destruct (is_user_memory_writable pr sizeof_uid_t),
           (is_user_memory_writable pe sizeof_uid_t),
           (is_user_memory_writable ps sizeof_uid_t);
    simpl; try reflexivity.
  destruct Hfault as [? | [? | ?]]; discriminate.
Qed.

(** X13: when the boundary check accepts the three pointers and they are
    three different cells, getresuid returns 0 and leaves the real, effective
    and saved user ID in them, in that order; no other cell changes. *)
Theorem getresuid_reads_three_fields (pr pe ps : Z) (t : libos_thread)
    (mem : gmap Z Z) :
  is_user_memory_writable pr sizeof_uid_t = true ->
  is_user_memory_writable pe sizeof_uid_t = true ->
  is_user_memory_writable ps sizeof_uid_t = true ->
  pr <> 0 -> pe <> 0 -> ps <> 0 -> pr <> pe -> pr <> ps -> pe <> ps ->
  (libos_syscall_getresuid is_user_memory_writable pr pe ps t mem).1 = 0 /\
  (libos_syscall_getresuid is_user_memory_writable pr pe ps t mem).2 !! pr =
    Some (uid t) /\
  (libos_syscall_getresuid is_user_memory_writable pr pe ps t mem).2 !! pe =
    Some (euid t) /\
  (libos_syscall_getresuid is_user_memory_writable pr pe ps t mem).2 !! ps =
    Some (suid t) /\
  (forall q, q <> pr -> q <> pe -> q <> ps ->
     (libos_syscall_getresuid is_user_memory_writable pr pe ps t mem).2 !! q =
       mem !! q).
Proof.
  intros Hwr Hwe Hws Hr He Hs Hre Hrs Hes.
  unfold libos_syscall_getresuid. rewrite Hwr, Hwe, Hws. simpl.
  split; [reflexivity |]. apply getresuid_distinct; assumption.
Qed.

(** X14: when the boundary check accepts a pointer and getresuid is given
    that pointer three times, it returns 0; nothing is written if the pointer
    is NULL, and otherwise the one cell ends up holding the saved user ID,
    the last of the three stores. *)
Theorem getresuid_same_pointer (p : Z) (t : libos_thread) (mem : gmap Z Z) :
  is_user_memory_writable p sizeof_uid_t = true ->
  libos_syscall_getresuid is_user_memory_writable p p p t mem =
    (0, if p =? 0 then mem else <[p := suid t]> mem).
Proof.
  intros Hw. unfold libos_syscall_getresuid, getresuid, store_if_nonnull.
  rewrite Hw. simpl. destruct (p =? 0); [reflexivity |].
  rewrite !insert_insert_eq. reflexivity.
Qed.

(** X15: after a setresuid that returned 0 and whose three arguments are
    identities (none is the sentinel), getresuid into three different
    writable cells returns 0 and reads back the three arguments. *)
Theorem setresuid_getresuid_roundtrip (a b c : uid_t) (pr pe ps : Z)
    (t : libos_thread) (mem : gmap Z Z) :
  is_id a -> is_id b -> is_id c ->
  a <> sentinel -> b <> sentinel -> c <> sentinel ->
  (libos_syscall_setresuid a b c t).1 = 0 ->
  is_user_memory_writable pr sizeof_uid_t = true ->
  is_user_memory_writable pe sizeof_uid_t = true ->
  is_user_memory_writable ps sizeof_uid_t = true ->
  pr <> 0 -> pe <> 0 -> ps <> 0 -> pr <> pe -> pr <> ps -> pe <> ps ->
  let r := libos_syscall_getresuid is_user_memory_writable pr pe ps
             (libos_syscall_setresuid a b c t).2 mem in
  r.1 = 0 /\ r.2 !! pr = Some a /\ r.2 !! pe = Some b /\ r.2 !! ps = Some c.
Proof.
  intros Ha Hb Hc Has Hbs Hcs Hret Hwr Hwe Hws Hr He Hs Hre Hrs Hes.
  destruct (setresuid_success_fields a b c t Ha Hb Hc Hret)
    as (Hu & Heu & Hsu).
  unfold keep_or_set in *.
  destruct (Z.eqb_spec a sentinel); [contradiction |].
  destruct (Z.eqb_spec b sentinel); [contradiction |].
  destruct (Z.eqb_spec c sentinel); [contradiction |].
  simpl. unfold libos_syscall_getresuid. rewrite Hwr, Hwe, Hws. simpl.
  destruct (getresuid_distinct pr pe ps (libos_syscall_setresuid a b c t).2
              mem Hr He Hs Hre Hrs Hes) as (H1 & H2 & H3 & _).
  rewrite H1, H2, H3, Hu, Heu, Hsu. repeat split.
Qed.

End GetResUidProperties.

Lemma getresuid_fault_writes_nothing_witness :
  nonnull_writable 0 sizeof_uid_t = false /\
  libos_syscall_getresuid nonnull_writable 8 0 16 user_thread ∅ =
    (- EFAULT, ∅).
Proof.
  exact (conj eq_refl
           (getresuid_fault_writes_nothing nonnull_writable 8 0 16
              user_thread ∅ (or_intror (or_introl eq_refl)))).
Defined.

Lemma getresuid_reads_three_fields_witness :
  nonnull_writable 8 sizeof_uid_t = true /\
  (libos_syscall_getresuid nonnull_writable 8 12 16 two_ids_thread ∅).2
    !! 12 = Some 33.
Proof.
  assert (H8 : 8 <> 0) by lia. assert (H12 : 12 <> 0) by lia.
  assert (H16 : 16 <> 0) by lia. assert (Ha : 8 <> 12) by lia.
  assert (Hb : 8 <> 16) by lia. assert (Hc : 12 <> 16) by lia.
  pose proof (getresuid_reads_three_fields nonnull_writable 8 12 16
                two_ids_thread ∅ eq_refl eq_refl eq_refl
                H8 H12 H16 Ha Hb Hc) as (_ & _ & He & _).
  exact (conj eq_refl He).
Defined.

Lemma getresuid_same_pointer_witness :
  nonnull_writable 8 sizeof_uid_t = true /\
  libos_syscall_getresuid nonnull_writable 8 8 8 two_ids_thread ∅ =
    (0, <[8 := 33]> ∅).
Proof.
  exact (conj eq_refl
           (getresuid_same_pointer nonnull_writable 8 two_ids_thread ∅
              eq_refl)).
Defined.

Lemma setresuid_getresuid_roundtrip_witness :
  is_id 5 /\ is_id 6 /\ is_id 7 /\
  (libos_syscall_setresuid 5 6 7 root_thread).1 = 0 /\
  (libos_syscall_getresuid nonnull_writable 8 12 16
     (libos_syscall_setresuid 5 6 7 root_thread).2 ∅).2 !! 16 = Some 7.
Proof.
  assert (H5 : is_id 5) by (unfold is_id; lia).
  assert (H6 : is_id 6) by (unfold is_id; lia).
  assert (H7 : is_id 7) by (unfold is_id; lia).
  assert (N5 : 5 <> sentinel) by (unfold sentinel; lia).
  assert (N6 : 6 <> sentinel) by (unfold sentinel; lia).
  assert (N7 : 7 <> sentinel) by (unfold sentinel; lia).
  assert (H8 : 8 <> 0) by lia. assert (H12 : 12 <> 0) by lia.
  assert (H16 : 16 <> 0) by lia. assert (Ha : 8 <> 12) by lia.
  assert (Hb : 8 <> 16) by lia. assert (Hc : 12 <> 16) by lia.
  pose proof (setresuid_getresuid_roundtrip nonnull_writable 5 6 7 8 12 16
                root_thread ∅ H5 H6 H7 N5 N6 N7 eq_refl
                eq_refl eq_refl eq_refl H8 H12 H16 Ha Hb Hc)
    as (_ & _ & _ & Hs).
  exact (conj H5 (conj H6 (conj H7 (conj eq_refl Hs)))).
Defined.

(** ** Further properties of setgroups and getgroups *)

Lemma malloc_exact_sized (sz : Z) (a : list gid_t) :
  malloc_exact sz = Some a -> Z.of_nat (length a) * sizeof_gid_t = sz.
Proof.
  unfold malloc_exact, sizeof_gid_t.
  destruct (Z.leb_spec 0 sz) as [Hpos | ?]; [| discriminate].
  destruct (Z.eqb_spec (sz mod 4) 0) as [Hmod | ?]; [| discriminate].
  simpl. intros [= <-]. rewrite length_replicate.
  pose proof (Z.div_mod sz 4 ltac:(lia)) as Hdiv.
  assert (0 <= sz / 4) by (apply Z.div_pos; lia).
  rewrite Z2Nat.id by lia. lia.
Qed.

Lemma setgroups_groups_info_ok_witness :
  is_int 2 /\ groups_info_ok user_thread /\
  groups_info_ok two_groups_thread /\
  count (groups_info two_groups_thread) <= NGROUPS_MAX.
Proof.
  assert (H1 : is_int 2) by (unfold is_int; lia).
  assert (H2 : groups_info_ok user_thread)
    by (unfold groups_info_ok; simpl; lia).
  assert (H3 : count (groups_info user_thread) <= NGROUPS_MAX)
    by (unfold NGROUPS_MAX; simpl; lia).
  exact (conj H1 (conj H2
           (setgroups_groups_info_ok region_inside malloc_exact 2 [4; 5]
              user_thread two_groups_thread 0 malloc_exact_sized
              H1 H2 H3 eq_refl))).
Defined.

Section GroupsErrors.

Variable is_user_memory_readable : list gid_t -> Z -> bool.
Variable is_user_memory_writable : list gid_t -> Z -> bool.
Variable malloc : Z -> option (list gid_t).

(** The head of setgroups for a size that passes the range test. *)
Lemma setgroups_in_range (n : Z) (ids : list gid_t) (t : libos_thread) :
  0 < n <= NGROUPS_MAX ->
  libos_syscall_setgroups is_user_memory_readable malloc n ids t =
    if negb (is_user_memory_readable ids (n * sizeof_gid_t))
    then Some (- EFAULT, t)
    else match malloc (n * sizeof_gid_t) with
         | None => Some (- ENOMEM, t)
         | Some a =>
           match copy_ids (Z.to_nat n) 0 ids a with
           | None => None
           | Some a' =>
             Some (0, upd_groups_info (mk_groups_info n (Some a')) t)
           end
         end.
Proof.
  unfold NGROUPS_MAX. intros Hn. unfold libos_syscall_setgroups.
  destruct (Z.ltb_spec n 0); [lia |].
  rewrite cast_uint_small by lia.
  destruct (Z.gtb_spec n NGROUPS_MAX) as [Hbig | _];
    [unfold NGROUPS_MAX in Hbig; lia |].
  destruct (Z.eqb_spec n 0); [lia |]. simpl.
  rewrite scaled_size_small, (cast_size_t_small n) by lia. reflexivity.
Qed.

(** X16: the three failures of setgroups. A size that is negative or above
    65536 gives -EINVAL; a size in range whose list fails the boundary check
    gives -EFAULT; a size in range whose allocation fails gives -ENOMEM. In
    all three the record, the current group list included, is unchanged. *)
Theorem setgroups_error_cases (n : Z) (ids : list gid_t) (t : libos_thread) :
  is_int n ->
  (n < 0 \/ NGROUPS_MAX < n ->
   libos_syscall_setgroups is_user_memory_readable malloc n ids t =
     Some (- EINVAL, t)) /\
  (0 < n <= NGROUPS_MAX ->
   is_user_memory_readable ids (n * sizeof_gid_t) = false ->
   libos_syscall_setgroups is_user_memory_readable malloc n ids t =
     Some (- EFAULT, t)) /\
  (0 < n <= NGROUPS_MAX ->
   is_user_memory_readable ids (n * sizeof_gid_t) = true ->
   malloc (n * sizeof_gid_t) = None ->
   libos_syscall_setgroups is_user_memory_readable malloc n ids t =
     Some (- ENOMEM, t)).
Proof.
  unfold is_int. intros Hint. split; [| split].
  - unfold NGROUPS_MAX. intros Hbad. unfold libos_syscall_setgroups.
    destruct (Z.ltb_spec n 0) as [Hneg | Hpos]; [reflexivity |].
    rewrite cast_uint_small by lia.
    destruct (Z.gtb_spec n NGROUPS_MAX) as [_ | Hsmall];
      [reflexivity | unfold NGROUPS_MAX in Hsmall; lia].
  - intros Hn Hread. rewrite setgroups_in_range, Hread by exact Hn.
    reflexivity.
  - intros Hn Hread Hmalloc.
    rewrite setgroups_in_range, Hread, Hmalloc by exact Hn. reflexivity.
Qed.

(** X17: whenever setgroups returns a value other than 0, that value is
    -EINVAL, -EFAULT or -ENOMEM and the record is exactly as before the
    call. *)
Theorem setgroups_failure_keeps_record (n : Z) (ids : list gid_t)
    (t t' : libos_thread) (ret : Z) :
  libos_syscall_setgroups is_user_memory_readable malloc n ids t =
    Some (ret, t') ->
  ret <> 0 ->
  t' = t /\ (ret = - EINVAL \/ ret = - EFAULT \/ ret = - ENOMEM).
Proof.
  unfold libos_syscall_setgroups.
  destruct ((n <? 0) || (cast_uint n >? NGROUPS_MAX));
    [intros [= <- <-]; auto |].
  destruct (n =? 0); [intros [= <- <-]; intros Hnz; contradiction |].
  destruct (is_user_memory_readable ids _); simpl;
    [| intros [= <- <-]; auto].
  destruct (malloc _) as [a |]; [| intros [= <- <-]; auto 6].
  destruct (copy_ids _ _ _ _); [| discriminate].
  intros [= <- <-] Hnz. contradiction.
Qed.

(** X18: setgroups with size 0 returns 0 without looking at the list or
    calling the boundary check or the allocator, and leaves the record with
    no group list; a following getgroups with size 0 returns 0 and writes
    nothing. *)
Theorem setgroups_zero_clears (ids buffer : list gid_t) (t : libos_thread) :
  is_user_memory_writable buffer 0 = true ->
  libos_syscall_setgroups is_user_memory_readable malloc 0 ids t =
    Some (0, upd_groups_info (mk_groups_info 0 None) t) /\
  libos_syscall_getgroups is_user_memory_writable 0 buffer
    (upd_groups_info (mk_groups_info 0 None) t) = Some (0, buffer).
Proof.
  intros Hw. split; [reflexivity |].
  unfold libos_syscall_getgroups. simpl.
  change (cast_size_t (cast_size_t 0 * sizeof_gid_t)) with 0.
  rewrite Hw. reflexivity.
Qed.

(** X19: getgroups with size 0 is a probe: when the boundary check accepts
    the empty region it returns the current group count, whatever it is
    below 2^31, and writes nothing. *)
Theorem getgroups_probe (buffer : list gid_t) (t : libos_thread) :
  0 <= count (groups_info t) < 2 ^ 31 ->
  is_user_memory_writable buffer 0 = true ->
  libos_syscall_getgroups is_user_memory_writable 0 buffer t =
    Some (count (groups_info t), buffer).
Proof.
  intros Hcount Hw. unfold libos_syscall_getgroups. simpl.
  change (cast_size_t (cast_size_t 0 * sizeof_gid_t)) with 0.
  rewrite Hw. simpl.
  rewrite cast_size_t_small by lia.
  rewrite cast_int_small by (unfold is_int; lia). reflexivity.
Qed.

(** X20: getgroups with a negative size returns -EINVAL without calling the
    boundary check; with a size that is not negative and a buffer the
    boundary check rejects it returns -EFAULT. In both the buffer is
    unchanged. *)
Theorem getgroups_error_cases (size : Z) (buffer : list gid_t)
    (t : libos_thread) :
  is_int size ->
  (size < 0 ->
   libos_syscall_getgroups is_user_memory_writable size buffer t =
     Some (- EINVAL, buffer)) /\
  (0 <= size ->
   is_user_memory_writable buffer (size * sizeof_gid_t) = false ->
   libos_syscall_getgroups is_user_memory_writable size buffer t =
     Some (- EFAULT, buffer)).
Proof.
  unfold is_int. intros Hint. unfold libos_syscall_getgroups. split.
  - intros Hneg. destruct (Z.ltb_spec size 0); [reflexivity | lia].
  - intros Hpos Hw. destruct (Z.ltb_spec size 0); [lia |].
    rewrite scaled_size_small, Hw by lia. reflexivity.
Qed.

(** X21: getgroups stays inside its arrays: for a record whose count is the
    length of its group array and a buffer of at least size cells, the call
    performs no access outside the group array or the buffer, whatever the
    boundary check answers, and the buffer keeps its length. *)
Theorem getgroups_in_bounds (size : Z) (buffer : list gid_t)
    (t : libos_thread) :
  is_int size -> size <= Z.of_nat (length buffer) ->
  groups_info_ok t ->
  exists (ret : Z) (buffer' : list gid_t),
    libos_syscall_getgroups is_user_memory_writable size buffer t =
      Some (ret, buffer') /\
    length buffer' = length buffer.
Proof.
  unfold is_int, groups_info_ok. intros Hint Hbuf [Hrange Hcount].
  unfold libos_syscall_getgroups.
  destruct (Z.ltb_spec size 0); [eauto |].
  destruct (is_user_memory_writable buffer _); simpl; [| eauto].
  destruct (Z.eqb_spec size 0); simpl; [eauto |].
  rewrite (cast_size_t_small size), (cast_size_t_small (count _)) by lia.
  destruct (Z.gtb_spec (count (groups_info t)) size); [eauto |].
  replace (Z.to_nat (count (groups_info t)))
    with (length (groups_array t)) by lia.
  rewrite copy_ids_prefix by lia.
  eexists _, _. split; [reflexivity |].
  rewrite length_app, length_drop. lia.
Qed.

(** X22: setgroups stays inside its arrays: for a list of at least size
    identifiers and an allocator whose array has the cells asked for, the
    call performs no access outside the list or the new array. *)
Theorem setgroups_in_bounds (n : Z) (ids : list gid_t) (t : libos_thread) :
  is_int n -> n <= Z.of_nat (length ids) ->
  (forall a, malloc (n * sizeof_gid_t) = Some a -> Z.of_nat (length a) = n) ->
  exists (ret : Z) (t' : libos_thread),
    libos_syscall_setgroups is_user_memory_readable malloc n ids t =
      Some (ret, t').
Proof.
  unfold is_int. intros Hint Hids Hmalloc.
  destruct (Z_lt_le_dec n 0) as [Hneg | Hpos].
  { unfold libos_syscall_setgroups.
    destruct (Z.ltb_spec n 0); [simpl; eauto | lia]. }
  destruct (Z_lt_le_dec NGROUPS_MAX n) as [Hbig | Hsmall].
  { unfold libos_syscall_setgroups.
    destruct (Z.ltb_spec n 0); [lia |]. rewrite cast_uint_small by lia.
    destruct (Z.gtb_spec n NGROUPS_MAX); [simpl; eauto | lia]. }
  destruct (Z.eq_dec n 0) as [-> | Hnz]; [simpl; eauto |].
  rewrite setgroups_in_range by lia.
  destruct (is_user_memory_readable ids _); simpl; [| eauto].
  destruct (malloc _) as [a |]; [| eauto].
  specialize (Hmalloc a eq_refl).
  rewrite copy_ids_in_bounds by (simpl; lia). eauto.
Qed.

End GroupsErrors.

Lemma setgroups_error_cases_witness :
  is_int 65537 /\ is_int 2 /\
  libos_syscall_setgroups region_inside malloc_zeroed 65537 [1; 2]
    two_groups_thread = Some (- EINVAL, two_groups_thread) /\
  libos_syscall_setgroups region_inside malloc_fails 2 [1; 2]
    two_groups_thread = Some (- ENOMEM, two_groups_thread) /\
  libos_syscall_setgroups region_never malloc_zeroed 2 [1; 2]
    two_groups_thread = Some (- EFAULT, two_groups_thread).
Proof.
  assert (H1 : is_int 65537) by (unfold is_int; lia).
  assert (H2 : is_int 2) by (unfold is_int; lia).
  assert (H3 : 65537 < 0 \/ NGROUPS_MAX < 65537)
    by (unfold NGROUPS_MAX; lia).
  assert (H4 : 0 < 2 <= NGROUPS_MAX) by (unfold NGROUPS_MAX; lia).
  exact (conj H1 (conj H2 (conj
           (proj1 (setgroups_error_cases region_inside malloc_zeroed 65537
                     [1; 2] two_groups_thread H1) H3)
           (conj
              (proj2 (proj2 (setgroups_error_cases region_inside
                               malloc_fails 2 [1; 2] two_groups_thread H2))
                 H4 eq_refl eq_refl)
              (proj1 (proj2 (setgroups_error_cases region_never
                               malloc_zeroed 2 [1; 2] two_groups_thread H2))
                 H4 eq_refl))))).
Defined.

Lemma setgroups_failure_keeps_record_witness :
  - ENOMEM <> 0 /\
  two_groups_thread = two_groups_thread /\
  (- ENOMEM = - EINVAL \/ - ENOMEM = - EFAULT \/ - ENOMEM = - ENOMEM).
Proof.
  assert (H1 : - ENOMEM <> 0) by (unfold ENOMEM; lia).
  exact (conj H1
           (setgroups_failure_keeps_record region_inside malloc_fails 2
              [1; 2] two_groups_thread two_groups_thread (- ENOMEM)
              eq_refl H1)).
Defined.

Lemma setgroups_zero_clears_witness :
  region_inside [] 0 = true /\
  libos_syscall_setgroups region_never malloc_fails 0 [] two_groups_thread =
    Some (0, user_thread) /\
  libos_syscall_getgroups region_inside 0 [] user_thread = Some (0, []).
Proof.
  exact (conj eq_refl
           (setgroups_zero_clears region_never region_inside malloc_fails
              [] [] two_groups_thread eq_refl)).
Defined.

Lemma getgroups_probe_witness :
  0 <= count (groups_info two_groups_thread) < 2 ^ 31 /\
  libos_syscall_getgroups region_inside 0 [] two_groups_thread =
    Some (2, []).
Proof.
  assert (H1 : 0 <= count (groups_info two_groups_thread) < 2 ^ 31)
    by (simpl; lia).
  exact (conj H1
           (getgroups_probe region_inside [] two_groups_thread H1 eq_refl)).
Defined.

Lemma getgroups_error_cases_witness :
  is_int (-1) /\ is_int 3 /\
  libos_syscall_getgroups region_inside (-1) [7] two_groups_thread =
    Some (- EINVAL, [7]) /\
  libos_syscall_getgroups region_inside 3 [7] two_groups_thread =
    Some (- EFAULT, [7]).
Proof.
  assert (H1 : is_int (-1)) by (unfold is_int; lia).
  assert (H2 : is_int 3) by (unfold is_int; lia).
  assert (H3 : -1 < 0) by lia.
  assert (H4 : 0 <= 3) by lia.
  exact (conj H1 (conj H2 (conj
           (proj1 (getgroups_error_cases region_inside (-1) [7]
                     two_groups_thread H1) H3)
           (proj2 (getgroups_error_cases region_inside 3 [7]
                     two_groups_thread H2) H4 eq_refl)))).
Defined.

Lemma getgroups_in_bounds_witness :
  is_int 3 /\ groups_info_ok two_groups_thread /\
  exists (ret : Z) (buffer' : list gid_t),
    libos_syscall_getgroups region_inside 3 [7; 7; 7] two_groups_thread =
      Some (ret, buffer') /\
    length buffer' = length [7; 7; 7].
Proof.
  assert (H1 : is_int 3) by (unfold is_int; lia).
  assert (H2 : groups_info_ok two_groups_thread)
    by (unfold groups_info_ok; simpl; lia).
  assert (H3 : 3 <= Z.of_nat (length [7; 7; 7])) by (simpl; lia).
  exact (conj H1 (conj H2
           (getgroups_in_bounds region_inside 3 [7; 7; 7] two_groups_thread
              H1 H3 H2))).
Defined.

Lemma setgroups_in_bounds_witness :
  is_int 2 /\
  exists (ret : Z) (t' : libos_thread),
    libos_syscall_setgroups region_inside malloc_exact 2 [4; 5; 6]
      user_thread = Some (ret, t').
Proof.
  assert (H1 : is_int 2) by (unfold is_int; lia).
  assert (H2 : 2 <= Z.of_nat (length [4; 5; 6])) by (simpl; lia).
  assert (H3 : forall a, malloc_exact (2 * sizeof_gid_t) = Some a ->
                         Z.of_nat (length a) = 2)
    by (intros a [= <-]; reflexivity).
  exact (conj H1
           (setgroups_in_bounds region_inside malloc_exact 2 [4; 5; 6]
              user_thread H1 H2 H3)).
Defined.

(** ** Repeating a call *)

(** Operands of a comparison that are variables or constants. *)
Ltac is_atom x :=
  first [is_var x | is_const x | is_constructor x
        | match x with Zneg _ => idtac | Zpos _ => idtac end].

(** Case analysis on the comparisons between such operands only, so that the
    tests of an inner call are settled before those of the call around it. *)
Ltac split_eqb_atoms :=
  repeat match goal with
         | |- context [?a =? ?b] =>
           is_atom a; is_atom b; destruct (Z.eqb_spec a b); simpl
         end.

(** X23: each of setuid, setgid, setreuid and setresuid is idempotent:
    repeating a call with the same arguments on the record the first call
    left returns the same value and leaves the same record. *)
Theorem id_setters_idempotent (a b c : uid_t) (t : libos_thread) :
  is_id a -> is_id b -> is_id c ->
  libos_syscall_setuid a (libos_syscall_setuid a t).2 =
    libos_syscall_setuid a t /\
  libos_syscall_setgid a (libos_syscall_setgid a t).2 =
    libos_syscall_setgid a t /\
  libos_syscall_setreuid a b (libos_syscall_setreuid a b t).2 =
    libos_syscall_setreuid a b t /\
  libos_syscall_setresuid a b c (libos_syscall_setresuid a b c t).2 =
    libos_syscall_setresuid a b c t.
Proof.
  intros Ha Hb Hc. destruct t as [u e s g eg sg gi].
  split; [| split; [| split]].
  - unfold libos_syscall_setuid, EPERM. simpl.
    split_eqb_atoms; reflexivity || congruence.
  - unfold libos_syscall_setgid, EPERM. simpl.
    split_eqb_atoms; reflexivity || congruence.
  - unfold libos_syscall_setreuid, EPERM. simpl. sentinel_tests.
    split_eqb_atoms; reflexivity || congruence.
  - unfold libos_syscall_setresuid, EPERM. simpl. sentinel_tests.
    split_eqb_atoms; reflexivity || congruence.
Qed.

Lemma id_setters_idempotent_witness :
  is_id 33 /\ is_id 1000 /\ is_id sentinel /\
  libos_syscall_setreuid 33 1000
    (libos_syscall_setreuid 33 1000 two_ids_thread).2 =
    libos_syscall_setreuid 33 1000 two_ids_thread.
Proof.
  assert (H1 : is_id 33) by (unfold is_id; lia).
  assert (H2 : is_id 1000) by (unfold is_id; lia).
  assert (H3 : is_id sentinel) by (unfold is_id, sentinel; lia).
  exact (conj H1 (conj H2 (conj H3
           (proj1 (proj2 (proj2 (id_setters_idempotent 33 1000 sentinel
                                   two_ids_thread H1 H2 H3))))))).
Defined.
